(** * django-drip: the campaign evaluation core of [drip/drips.py]

    A shallow embedding of [DripEmail] and [DripBase].  Python objects are
    records, attributes that may hold [None] are [option]s, the database and
    the mail transport are an explicit [World] threaded through a small
    state-and-exception monad, and Django querysets are kept as the lazy
    query expressions they are, evaluated against the tables only when they
    are iterated. *)

From Stdlib Require Import ZArith List Bool Ascii Lia.
From stdpp Require Import base strings gmap.
Import ListNotations.

(** ** Python values *)

(** An attribute holding [None] or a [str]. *)
Abbreviation pystr := (option string).

(** Python truthiness of such an attribute: [None] and [''] are false. *)
Definition truthy (v : pystr) : bool :=
  match v with
  | Some s => negb (String.eqb s EmptyString)
  | None => false
  end.

(** ["%s" % v]. *)
Definition str (v : pystr) : string :=
  match v with
  | Some s => s
  | None => "None"
  end.

(** [range(a, b)] on unbounded integers. *)
Definition range (a b : Z) : list Z :=
  map (fun i => (a + Z.of_nat i)%Z) (seq 0 (Z.to_nat (b - a))).

(** ** Exceptions and the state monad *)

Inductive Exc :=
| AttributeError (msg : string)
| TypeError (msg : string)
| FieldError
| TemplateError
| TransportError.

Inductive Outcome (A : Type) :=
| Return (a : A)
| Raise (e : Exc).
Arguments Return {A} a.
Arguments Raise {A} e.

(** A computation over a mutable state [S]: the state survives a raised
    exception, as the heap and the database do in Python. *)
Definition M (S A : Type) := S -> Outcome A * S.

Definition ret {S A} (a : A) : M S A := fun s => (Return a, s).
Definition raise {S A} (e : Exc) : M S A := fun s => (Raise e, s).
Definition bind {S A B} (m : M S A) (k : A -> M S B) : M S B :=
  fun s =>
    match m s with
    | (Return a, s') => k a s'
    | (Raise e, s') => (Raise e, s')
    end.
Definition gets {S A} (f : S -> A) : M S A := fun s => (Return (f s), s).
Definition modify {S} (f : S -> S) : M S unit := fun s => (Return tt, f s).

Declare Scope py_scope.
Delimit Scope py_scope with py.
Notation "x <- m ;; k" := (bind m (fun x => k))
  (at level 100, m at next level, right associativity) : py_scope.
Notation "m ;;; k" := (bind m (fun _ => k))
  (at level 100, right associativity) : py_scope.
Open Scope py_scope.

(** ** The database rows *)

(** [django.contrib.auth.models.User]: the primary key and the address the
    mail goes to. *)
Record User := { user_id : Z; user_email : string }.

#[global] Instance User_eq_dec : EqDecision User.
Proof. solve_decision. Defined.

(** [EmailMultiAlternatives(subject, body, from_email, to)] with the
    alternatives attached afterwards. *)
Record EmailMultiAlternatives := {
  msg_subject : string;
  msg_body : string;
  msg_from_email : pystr;
  msg_to : list string;
  alternatives : list (string * string)
}.

Definition attach_alternative (content mimetype : string)
    (m : EmailMultiAlternatives) : EmailMultiAlternatives :=
  {| msg_subject := msg_subject m;
     msg_body := msg_body m;
     msg_from_email := msg_from_email m;
     msg_to := msg_to m;
     alternatives := alternatives m ++ [(content, mimetype)] |}.

(** A row of [SentDrip], with the columns [DripBase.build_email] fills.

    Modelled from the spec: the model class lives in [drip/models.py], which
    is not part of the sources; the timestamp column [date] is the
    "timestamp" of the Sent Record, set to the time of creation. *)
Record SentDrip := {
  sd_date : Z;
  sd_drip : Z;
  sd_user : Z;
  sd_from_email : pystr;
  sd_from_email_name : pystr;
  sd_subject : string;
  sd_body : string
}.

Inductive MethodType := filter_method | exclude_method.

(** A row of the filter rules of a campaign.

    Modelled from the spec: [QuerySetRule] and its [apply] live in
    [drip/models.py], which is not part of the sources.  A Filter Rule has a
    polarity and a comparison that may reference "now"; [rule_lookup t] is
    the predicate the rule compiles to when "now" is [t], or [None] when the
    rule references an unsupported field or comparator. *)
Record QuerySetRule := {
  rule_drip : Z;
  method_type : MethodType;
  rule_lookup : Z -> option (User -> bool)
}.

(** The persisted campaign [Drip], as far as the core reads it. *)
Record Drip := { drip_pk : Z; enabled : bool }.

(** ** Lazy querysets over [User] *)

Inductive QuerySet :=
| User_objects
| QFilter (p : User -> bool) (qs : QuerySet)
| QExclude (p : User -> bool) (qs : QuerySet)
| QDistinct (qs : QuerySet)
(** [qs.exclude(id__in=SentDrip.objects.filter(date__lt=date_lt, drip=drip,
    user__id__in=target.values_list('id')).values_list('user_id'))] *)
| QExcludeSent (date_lt : Z) (drip : Z) (target : QuerySet) (qs : QuerySet).

(** ** Observable events *)

Inductive Event :=
| EvRulesQuery (drip : Z)
| EvUsersQuery
| EvRender (template : pystr) (u : User)
| EvCreateSentDrip (sd : SentDrip)
| EvSend (msg : EmailMultiAlternatives).

(** ** The world outside the instance *)

Record World := {
  auth_user : list User;
  drip_sentdrip : list SentDrip;
  drip_querysetrule : list QuerySetRule;
  ticks : nat;
  log : list Event
}.

Definition emit (e : Event) (w : World) : World :=
  {| auth_user := auth_user w;
     drip_sentdrip := drip_sentdrip w;
     drip_querysetrule := drip_querysetrule w;
     ticks := ticks w;
     log := log w ++ [e] |}.

Definition tick (w : World) : World :=
  {| auth_user := auth_user w;
     drip_sentdrip := drip_sentdrip w;
     drip_querysetrule := drip_querysetrule w;
     ticks := S (ticks w);
     log := log w |}.

Definition insert_sentdrip (sd : SentDrip) (w : World) : World :=
  {| auth_user := auth_user w;
     drip_sentdrip := drip_sentdrip w ++ [sd];
     drip_querysetrule := drip_querysetrule w;
     ticks := ticks w;
     log := log w |}.

(** The Sent Records selected by
    [filter(date__lt=date_lt, drip=drip, user__id__in=ids)]. *)
Definition sent_matches (date_lt drip : Z) (ids : list Z) (sd : SentDrip) : bool :=
  (sd_date sd <? date_lt)%Z && (sd_drip sd =? drip)%Z
  && existsb (Z.eqb (sd_user sd)) ids.

(** The rows a queryset evaluates to on the current tables. *)
Fixpoint rows (w : World) (q : QuerySet) : list User :=
  match q with
  | User_objects => auth_user w
  | QFilter p qs => List.filter p (rows w qs)
  | QExclude p qs => List.filter (fun u => negb (p u)) (rows w qs)
  | QDistinct qs => remove_dups (rows w qs)
  | QExcludeSent date_lt drip target qs =>
      let target_user_ids := map user_id (rows w target) in
      let exclude_user_ids :=
        map sd_user
            (List.filter (sent_matches date_lt drip target_user_ids)
                         (drip_sentdrip w)) in
      List.filter (fun u => negb (existsb (Z.eqb (user_id u)) exclude_user_ids))
                  (rows w qs)
  end.

(** ** Collaborators

    Everything the module imports from Django and the standard library whose
    behaviour the core relies on but does not define. *)

Record Settings := {
  DRIP_FROM_EMAIL : option pystr;
  DEFAULT_FROM_EMAIL : option pystr
}.

Record Env := {
  settings : Settings;
  (** the successive readings of the real clock, in microseconds from
      [datetime.min] *)
  wall_clock : nat -> Z;
  (** [Template(t).render(Context({'user': u}))]; [None] when it raises *)
  Template_render : pystr -> User -> option string;
  strip_tags : string -> string;
  (** whether the mail transport accepts the message *)
  transport : EmailMultiAlternatives -> bool
}.

(** Generic accessors on a state whose first component is the world. *)
Definition emit_event {X} (e : Event) : M (World * X) unit :=
  modify (fun s => (emit e (fst s), snd s)).

Section Clock.
Context (env : Env).

(** [conditional_now()]: one reading of the real clock. *)
Definition conditional_now {X} : M (World * X) Z :=
  fun s => (Return (wall_clock env (ticks (fst s))), (tick (fst s), snd s)).
End Clock.

(** [datetime.timedelta] called with the keyword arguments [kw], in
    microseconds; a keyword it does not know is a [TypeError]. *)
Definition timedelta_unit (k : string) : option Z :=
  if String.eqb k "days" then Some 86400000000%Z
  else if String.eqb k "seconds" then Some 1000000%Z
  else if String.eqb k "microseconds" then Some 1%Z
  else if String.eqb k "milliseconds" then Some 1000%Z
  else if String.eqb k "minutes" then Some 60000000%Z
  else if String.eqb k "hours" then Some 3600000000%Z
  else if String.eqb k "weeks" then Some 604800000000%Z
  else None.

Definition timedelta (kw : gmap string Z) : Outcome Z :=
  map_fold (fun k v acc =>
              match acc, timedelta_unit k with
              | Return a, Some u => Return (a + v * u)%Z
              | Return _, None =>
                  Raise (TypeError "invalid keyword argument for timedelta")
              | Raise e, _ => Raise e
              end)
           (Return 0%Z) kw.

(** ** [DripBase]: the instance and its constructor *)

(** The class-level attributes of [DripBase] or of a subclass, and the
    user-defined [queryset()]. *)
Record DripClass := {
  cls_name : pystr;
  cls_subject_template : pystr;
  cls_body_template : pystr;
  cls_from_email : pystr;
  cls_from_email_name : pystr;
  cls_queryset : QuerySet
}.

Definition DripBase_class : DripClass :=
  {| cls_name := None;
     cls_subject_template := None;
     cls_body_template := None;
     cls_from_email := None;
     cls_from_email_name := None;
     cls_queryset := User_objects |}.

(** The instance attributes; [_queryset] is [None] while the attribute does
    not exist. *)
Record DripBase := {
  __class__ : DripClass;
  drip_model : Drip;
  name : pystr;
  from_email : pystr;
  from_email_name : pystr;
  subject_template : pystr;
  body_template : pystr;
  now_shift_kwargs : gmap string Z;
  _queryset : option QuerySet
}.

(** The keyword arguments of the constructor; [None] is an absent key. *)
Record Kwargs := {
  kw_name : option pystr;
  kw_from_email : option pystr;
  kw_from_email_name : option pystr;
  kw_subject_template : option pystr;
  kw_body_template : option pystr;
  kw_now_shift_kwargs : option (gmap string Z)
}.

Definition __init__ (cls : DripClass) (drip_model : Drip) (kwargs : Kwargs)
    : Outcome DripBase :=
  let name := default (cls_name cls) (kw_name kwargs) in
  let from_email := default (cls_from_email cls) (kw_from_email kwargs) in
  let from_email_name :=
    default (cls_from_email_name cls) (kw_from_email_name kwargs) in
  let subject_template :=
    default (cls_subject_template cls) (kw_subject_template kwargs) in
  let body_template :=
    default (cls_body_template cls) (kw_body_template kwargs) in
  if negb (truthy name) then Raise (AttributeError "You must define a name.")
  else Return {| __class__ := cls;
                 drip_model := drip_model;
                 name := name;
                 from_email := from_email;
                 from_email_name := from_email_name;
                 subject_template := subject_template;
                 body_template := body_template;
                 now_shift_kwargs := default ∅ (kw_now_shift_kwargs kwargs);
                 _queryset := None |}.

(** An exception raised by a pure call surfaces in the caller. *)
Definition lift {S A} (o : Outcome A) : M S A := fun s => (o, s).

(** [EmailMultiAlternatives(subject, body, from_email, to)] as Django
    constructs it: the sender it stores is
    [from_email or settings.DEFAULT_FROM_EMAIL], so the setting is read, and
    must exist, exactly when the sender passed is [None] or empty. *)
Definition EmailMultiAlternatives_init (st : Settings) (subject body : string)
    (from_email : pystr) (to : list string) : Outcome EmailMultiAlternatives :=
  if truthy from_email then
    Return {| msg_subject := subject; msg_body := body;
              msg_from_email := from_email; msg_to := to;
              alternatives := [] |}
  else
    match DEFAULT_FROM_EMAIL st with
    | Some fallback =>
        Return {| msg_subject := subject; msg_body := body;
                  msg_from_email := fallback; msg_to := to;
                  alternatives := [] |}
    | None =>
        Raise (AttributeError
                 "'Settings' object has no attribute 'DEFAULT_FROM_EMAIL'")
    end.

(** ** [DripEmail]: the message builder *)

Module DripEmail.

(** The builder and its memo fields.  [drip_base] is the instance at the
    time the builder is made: [build_email] does not assign to the
    instance between making the builder and reading [email]. *)
Record t := {
  drip_base : DripBase;
  user : User;
  _context : option User;
  _subject : pystr;
  _body : pystr;
  _plain : pystr;
  _email : option EmailMultiAlternatives
}.

(** [DripEmail(drip_base, user)]. *)
Definition new (drip_base : DripBase) (user : User) : t :=
  {| drip_base := drip_base; user := user; _context := None;
     _subject := None; _body := None; _plain := None; _email := None |}.

Definition set_context (c : User) (e : t) : t :=
  {| drip_base := drip_base e; user := user e; _context := Some c;
     _subject := _subject e; _body := _body e; _plain := _plain e;
     _email := _email e |}.
Definition set_subject (v : string) (e : t) : t :=
  {| drip_base := drip_base e; user := user e; _context := _context e;
     _subject := Some v; _body := _body e; _plain := _plain e;
     _email := _email e |}.
Definition set_body (v : string) (e : t) : t :=
  {| drip_base := drip_base e; user := user e; _context := _context e;
     _subject := _subject e; _body := Some v; _plain := _plain e;
     _email := _email e |}.
Definition set_plain (v : string) (e : t) : t :=
  {| drip_base := drip_base e; user := user e; _context := _context e;
     _subject := _subject e; _body := _body e; _plain := Some v;
     _email := _email e |}.
Definition set_email (m : EmailMultiAlternatives) (e : t) : t :=
  {| drip_base := drip_base e; user := user e; _context := _context e;
     _subject := _subject e; _body := _body e; _plain := _plain e;
     _email := Some m |}.

Definition St := (World * t)%type.
Definition self_ {A} (f : t -> A) : M St A := gets (fun s => f (snd s)).
Definition assign (f : t -> t) : M St unit :=
  modify (fun s => (fst s, f (snd s))).

Section Properties.
Context (env : Env).

(** [Template(template).render(context)]. *)
Definition render (template : pystr) (context : User) : M St string :=
  emit_event (EvRender template context) ;;;
  match Template_render env template context with
  | Some s => ret s
  | None => raise TemplateError
  end.

Definition context : M St User :=
  c <- self_ _context ;;
  match c with
  | Some c => ret c
  | None =>
      u <- self_ user ;;
      assign (set_context u) ;;;
      ret u
  end.

Definition subject : M St string :=
  v <- self_ _subject ;;
  (if truthy v then ret tt
   else
     tpl <- self_ (fun e => subject_template (drip_base e)) ;;
     c <- context ;;
     r <- render tpl c ;;
     assign (set_subject r)) ;;;
  self_ (fun e => default EmptyString (_subject e)).

Definition body : M St string :=
  v <- self_ _body ;;
  (if truthy v then ret tt
   else
     tpl <- self_ (fun e => body_template (drip_base e)) ;;
     c <- context ;;
     r <- render tpl c ;;
     assign (set_body r)) ;;;
  self_ (fun e => default EmptyString (_body e)).

Definition plain : M St string :=
  v <- self_ _plain ;;
  (if truthy v then ret tt
   else
     b <- body ;;
     assign (set_plain (strip_tags env b))) ;;;
  self_ (fun e => default EmptyString (_plain e)).

Definition email : M St EmailMultiAlternatives :=
  m <- self_ _email ;;
  match m with
  | Some m => ret m
  | None =>
      base <- self_ drip_base ;;
      let from_ :=
        if truthy (from_email_name base)
        then Some (str (from_email_name base) +:+ " <"
                   +:+ str (from_email base) +:+ ">")
        else from_email base in
      s <- subject ;;
      p <- plain ;;
      u <- self_ user ;;
      m <- lift (EmailMultiAlternatives_init (settings env) s p from_
                   [user_email u]) ;;
      assign (set_email m) ;;;
      p' <- plain ;;
      b' <- body ;;
      (if Nat.eqb (String.length p') (String.length b') then ret m
       else
         b'' <- body ;;
         let m' := attach_alternative b'' "text/html" m in
         assign (set_email m') ;;;
         ret m')
  end.

Definition from_email : M St pystr :=
  self_ (fun e => from_email (drip_base e)).
Definition from_email_name : M St pystr :=
  self_ (fun e => from_email_name (drip_base e)).
End Properties.

End DripEmail.

(** ** [DripBase]: the methods *)

Definition St := (World * DripBase)%type.
Definition self_ {A} (f : DripBase -> A) : M St A := gets (fun s => f (snd s)).
Definition assign (f : DripBase -> DripBase) : M St unit :=
  modify (fun s => (fst s, f (snd s))).

Definition set_from_email (v : pystr) (d : DripBase) : DripBase :=
  {| __class__ := __class__ d; drip_model := drip_model d; name := name d;
     from_email := v; from_email_name := from_email_name d;
     subject_template := subject_template d;
     body_template := body_template d;
     now_shift_kwargs := now_shift_kwargs d; _queryset := _queryset d |}.

Definition set_queryset (q : QuerySet) (d : DripBase) : DripBase :=
  {| __class__ := __class__ d; drip_model := drip_model d; name := name d;
     from_email := from_email d; from_email_name := from_email_name d;
     subject_template := subject_template d;
     body_template := body_template d;
     now_shift_kwargs := now_shift_kwargs d; _queryset := Some q |}.

(** Reading a property of a builder object from a method of the instance:
    the builder is garbage afterwards, the world it touched is not. *)
Definition on_builder {A} (e : DripEmail.t) (m : M DripEmail.St A) : M St A :=
  fun s =>
    let r := m (fst s, e) in
    (fst r, (fst (snd r), snd s)).

(** The keyword arguments [walk] builds for one shift. *)
Definition walk_kwargs (self : DripBase) (shift : Z) : Kwargs :=
  {| kw_name := Some (name self);
     kw_from_email := None;
     kw_from_email_name := None;
     kw_subject_template := None;
     kw_body_template := None;
     kw_now_shift_kwargs := Some {[ "days" := shift ]} |}.

Section Methods.
Context (env : Env).

(** *** Date manipulation *)

Definition now : M St Z :=
  t <- conditional_now env ;;
  kw <- self_ now_shift_kwargs ;;
  d <- lift (timedelta kw) ;;
  ret (t + d)%Z.

Fixpoint walk_loop (shifts : list Z) (walked_range : list DripBase)
    : M St (list DripBase) :=
  match shifts with
  | [] => ret walked_range
  | shift :: shifts' =>
      self <- gets snd ;;
      d <- lift (__init__ (__class__ self) (drip_model self)
                          (walk_kwargs self shift)) ;;
      walk_loop shifts' (walked_range ++ [d])
  end.

Definition walk (into_past into_future : Z) : M St (list DripBase) :=
  walk_loop (range (- into_past) into_future) [].

(** [queryset_rule.apply(qs, now=now)], see [QuerySetRule]. *)
Definition apply (rule : QuerySetRule) (qs : QuerySet) (now : M St Z)
    : M St QuerySet :=
  t <- now ;;
  match rule_lookup rule t with
  | Some p =>
      ret (match method_type rule with
           | filter_method => QFilter p qs
           | exclude_method => QExclude p qs
           end)
  | None => raise FieldError
  end.

Fixpoint apply_rules (rules : list QuerySetRule) (qs : QuerySet)
    : M St QuerySet :=
  match rules with
  | [] => ret qs
  | queryset_rule :: rules' =>
      qs' <- apply queryset_rule qs now ;;
      apply_rules rules' qs'
  end.

Definition apply_queryset_rules (qs : QuerySet) : M St QuerySet :=
  pk <- self_ (fun d => drip_pk (drip_model d)) ;;
  emit_event (EvRulesQuery pk) ;;;
  rules <- gets (fun s : St =>
                   List.filter (fun r => (rule_drip r =? pk)%Z)
                               (drip_querysetrule (fst s))) ;;
  apply_rules rules qs.

(** *** User defined *)

Definition queryset : M St QuerySet :=
  self_ (fun d => cls_queryset (__class__ d)).

(** *** Management *)

Definition get_queryset : M St QuerySet :=
  cached <- self_ _queryset ;;
  match cached with
  | Some qs => ret qs
  | None =>
      base <- queryset ;;
      qs <- apply_queryset_rules base ;;
      assign (set_queryset (QDistinct qs)) ;;;
      ret (QDistinct qs)
  end.

Definition prune : M St unit :=
  target_user_ids <- get_queryset ;;
  date_lt <- conditional_now env ;;
  drip <- self_ (fun d => drip_pk (drip_model d)) ;;
  qs <- get_queryset ;;
  assign (set_queryset (QExcludeSent date_lt drip target_user_ids qs)).

(** [get_email_instance(self, user)] with [DRIP_EMAIL_CLASS] left at its
    default, [drip.drips.DripEmail]. *)
Definition get_email_instance (user : User) : M St DripEmail.t :=
  self <- gets snd ;;
  ret (DripEmail.new self user).

(** [SentDrip.objects.create(...)]: the row gets the time of creation. *)
Definition SentDrip_create (user : User) (email : EmailMultiAlternatives)
    : M St SentDrip :=
  self <- gets snd ;;
  date <- conditional_now env ;;
  let sd := {| sd_date := date;
               sd_drip := drip_pk (drip_model self);
               sd_user := user_id user;
               sd_from_email := from_email self;
               sd_from_email_name := from_email_name self;
               sd_subject := msg_subject email;
               sd_body := msg_body email |} in
  modify (fun s : St => (insert_sentdrip sd (fst s), snd s)) ;;;
  emit_event (EvCreateSentDrip sd) ;;;
  ret sd.

(** [email.send()]. *)
Definition email_send (email : EmailMultiAlternatives) : M St unit :=
  emit_event (EvSend email) ;;;
  if transport env email then ret tt else raise TransportError.

Definition build_email (user : User) (send : bool)
    : M St EmailMultiAlternatives :=
  fe <- self_ from_email ;;
  (if truthy fe then ret tt
   else
     match DEFAULT_FROM_EMAIL (settings env) with
     | None =>
         raise (AttributeError
                  "'Settings' object has no attribute 'DEFAULT_FROM_EMAIL'")
     | Some fallback =>
         assign (set_from_email
                   (default fallback (DRIP_FROM_EMAIL (settings env))))
     end) ;;;
  builder <- get_email_instance user ;;
  email <- on_builder builder (DripEmail.email env) ;;
  (if send then
     sd <- SentDrip_create user email ;;
     email_send email
   else ret tt) ;;;
  ret email.

Fixpoint send_loop (users : list User) (count : Z) : M St Z :=
  match users with
  | [] => ret count
  | user :: users' =>
      msg <- build_email user true ;;
      send_loop users' (count + 1)%Z
  end.

(** Iterating a queryset runs its query on the tables as they are now. *)
Definition iterate (qs : QuerySet) : M St (list User) :=
  emit_event EvUsersQuery ;;;
  gets (fun s : St => rows (fst s) qs).

Definition send : M St Z :=
  qs <- get_queryset ;;
  users <- iterate qs ;;
  send_loop users 0%Z.

Definition run : M St (option Z) :=
  is_enabled <- self_ (fun d => enabled (drip_model d)) ;;
  if negb is_enabled then ret None
  else
    prune ;;;
    count <- send ;;
    ret (Some count).

End Methods.

(** ** Auxiliary definitions for the statements *)

Definition microseconds_per_day : Z := 86400000000.

(** The ranges of Python's [timedelta], in days, and of its [datetime], in
    microseconds from [datetime.min]: outside them the sum in [now] raises
    [OverflowError], which the embedding of [now] leaves out. *)
Definition timedelta_max_days : Z := 999999999.
Definition datetime_max : Z := 3652059 * microseconds_per_day - 1.

(** The sibling [walk] derives from [self] for one shift. *)
Definition sibling (self : DripBase) (shift : Z) : DripBase :=
  {| __class__ := __class__ self;
     drip_model := drip_model self;
     name := name self;
     from_email := cls_from_email (__class__ self);
     from_email_name := cls_from_email_name (__class__ self);
     subject_template := cls_subject_template (__class__ self);
     body_template := cls_body_template (__class__ self);
     now_shift_kwargs := {[ "days" := shift ]};
     _queryset := None |}.

(** [m] relates the instance it starts from to the one it leaves behind,
    whether it returns or raises. *)
Definition preserves (R : DripBase -> DripBase -> Prop) {A} (m : M St A)
    : Prop :=
  forall s, R (snd s) (snd (snd (m s))).

(** A rendering engine that substitutes nothing.  As Django's [Template]
    does, it takes a missing template for the text [None]. *)
Definition verbatim_render (template : pystr) (context : User) : option string :=
  Some (str template).

(** Tag stripping in the manner of Django's regular expression
    [<[^>]*?>]: every run from a [<] to the next [>] is deleted; a [<] with
    no [>] after it stays. *)
Fixpoint has_gt (s : string) : bool :=
  match s with
  | EmptyString => false
  | String c s' => if Ascii.eqb c ">"%char then true else has_gt s'
  end.

Fixpoint strip_tags_scan (inside : bool) (s : string) : string :=
  match s with
  | EmptyString => EmptyString
  | String c s' =>
      if inside then
        if Ascii.eqb c ">"%char then strip_tags_scan false s'
        else strip_tags_scan true s'
      else if Ascii.eqb c "<"%char then
        if has_gt s' then strip_tags_scan true s' else String c s'
      else String c (strip_tags_scan false s')
  end.

Definition regex_strip_tags (s : string) : string := strip_tags_scan false s.

Definition demo_settings : Settings :=
  {| DRIP_FROM_EMAIL := None;
     DEFAULT_FROM_EMAIL := Some (Some "webmaster@localhost") |}.

Definition demo_env : Env :=
  {| settings := demo_settings;
     wall_clock := fun n => (1000 + Z.of_nat n)%Z;
     Template_render := verbatim_render;
     strip_tags := regex_strip_tags;
     transport := fun _ => true |}.

Definition alice : User := {| user_id := 1; user_email := "alice@example.com" |}.
Definition bob : User := {| user_id := 2; user_email := "bob@example.com" |}.

Definition welcome : Drip := {| drip_pk := 7; enabled := true |}.

Definition demo_world : World :=
  {| auth_user := [alice; bob];
     drip_sentdrip := [];
     drip_querysetrule := [];
     ticks := 0;
     log := [] |}.

Definition demo_drip : DripBase :=
  {| __class__ := DripBase_class;
     drip_model := welcome;
     name := Some "welcome";
     from_email := Some "team@example.com";
     from_email_name := Some "Team";
     subject_template := Some "Hello";
     body_template := Some "<p>Welcome</p>";
     now_shift_kwargs := ∅;
     _queryset := None |}.

(** [u] has a Sent Record of campaign [drip] dated strictly before [t]. *)
Definition sent_before (w : World) (drip t : Z) (u : User) : Prop :=
  exists sd, In sd (drip_sentdrip w)
             /\ sd_user sd = user_id u
             /\ sd_drip sd = drip
             /\ (sd_date sd < t)%Z.

(** The pruning rule in the words of the specification: what [prune]
    removes from the candidates is exactly the users with a Sent Record of
    this campaign dated strictly before the instance's effective [now()],
    the real time plus the instance's offset. *)
Definition prune_removes_before_effective_now (env : Env) (s : St) : Prop :=
  forall effective_now target s0 pruned s',
    fst (now env s) = Return effective_now ->
    get_queryset env s = (Return target, s0) ->
    prune env s = (Return tt, s') ->
    _queryset (snd s') = Some pruned ->
    forall u,
      In u (rows (fst s') pruned) <->
      In u (rows (fst s') target)
      /\ ~ sent_before (fst s') (drip_pk (drip_model (snd s)))
                       effective_now u.

(** A backfill run: the clock stands two days after the epoch, alice got
    the campaign half a day ago, and the instance looks one day back. *)
Definition backfill_env : Env :=
  {| settings := demo_settings;
     wall_clock := fun n => (2 * microseconds_per_day + Z.of_nat n)%Z;
     Template_render := verbatim_render;
     strip_tags := regex_strip_tags;
     transport := fun _ => true |}.

Definition sent_to_alice : SentDrip :=
  {| sd_date := 129600000000;
     sd_drip := 7;
     sd_user := 1;
     sd_from_email := Some "team@example.com";
     sd_from_email_name := Some "Team";
     sd_subject := "Hello";
     sd_body := "Welcome" |}.

Definition backfill_world : World :=
  {| auth_user := [alice; bob];
     drip_sentdrip := [sent_to_alice];
     drip_querysetrule := [];
     ticks := 0;
     log := [] |}.

Definition yesterday_drip : DripBase :=
  {| __class__ := DripBase_class;
     drip_model := welcome;
     name := Some "welcome";
     from_email := Some "team@example.com";
     from_email_name := Some "Team";
     subject_template := Some "Hello";
     body_template := Some "<p>Welcome</p>";
     now_shift_kwargs := {[ "days" := (-1)%Z ]};
     _queryset := None |}.

Definition disabled_drip : DripBase :=
  {| __class__ := DripBase_class;
     drip_model := {| drip_pk := 8; enabled := false |};
     name := Some "paused";
     from_email := None;
     from_email_name := None;
     subject_template := Some "Hello";
     body_template := Some "Welcome";
     now_shift_kwargs := ∅;
     _queryset := None |}.

(** The world after some more events. *)
Definition add_events (evs : list Event) (w : World) : World :=
  {| auth_user := auth_user w;
     drip_sentdrip := drip_sentdrip w;
     drip_querysetrule := drip_querysetrule w;
     ticks := ticks w;
     log := log w ++ evs |}.

(** The sender header [DripEmail.email] computes. *)
Definition sender_header (d : DripBase) : pystr :=
  if truthy (from_email_name d)
  then Some (str (from_email_name d) +:+ " <" +:+ str (from_email d) +:+ ">")
  else from_email d.

(** Whether the message constructor finds a sender: the header is usable, or
    the settings have a [DEFAULT_FROM_EMAIL]. *)
Definition sender_available (env : Env) (d : DripBase) : bool :=
  match DEFAULT_FROM_EMAIL (settings env) with
  | Some _ => true
  | None => truthy (sender_header d)
  end.

(** The sender the message then stores. *)
Definition stored_sender (env : Env) (d : DripBase) : pystr :=
  if truthy (sender_header d) then sender_header d
  else
    match DEFAULT_FROM_EMAIL (settings env) with
    | Some fallback => fallback
    | None => None
    end.

(** The message [DripEmail.email] assembles from a rendered subject [s] and
    a rendered body [b]. *)
Definition built_message (env : Env) (d : DripBase) (u : User) (s b : string)
    : EmailMultiAlternatives :=
  {| msg_subject := s;
     msg_body := strip_tags env b;
     msg_from_email := stored_sender env d;
     msg_to := [user_email u];
     alternatives :=
       if Nat.eqb (String.length (strip_tags env b)) (String.length b)
       then []
       else [(b, "text/html")] |}.

(** The first step of [build_email]: an instance without a sender takes
    the configured one. *)
Definition resolve_from_email (env : Env) (d : DripBase) : Outcome DripBase :=
  if truthy (from_email d) then Return d
  else
    match DEFAULT_FROM_EMAIL (settings env) with
    | None =>
        Raise (AttributeError
                 "'Settings' object has no attribute 'DEFAULT_FROM_EMAIL'")
    | Some fallback =>
        Return (set_from_email
                  (default fallback (DRIP_FROM_EMAIL (settings env))) d)
    end.

(** The Sent Record [build_email] creates for [u] and the message [m] when
    the world is [w] and the instance [d]. *)
Definition sent_record (env : Env) (w : World) (d : DripBase) (u : User)
    (m : EmailMultiAlternatives) : SentDrip :=
  {| sd_date := wall_clock env (ticks w);
     sd_drip := drip_pk (drip_model d);
     sd_user := user_id u;
     sd_from_email := from_email d;
     sd_from_email_name := from_email_name d;
     sd_subject := msg_subject m;
     sd_body := msg_body m |}.

Definition rendering (e : Event) : Prop :=
  match e with
  | EvRender _ _ => True
  | _ => False
  end.

(** The messages handed to the transport and the Sent Records created, in
    the order of a log. *)
Fixpoint sent_messages (evs : list Event) : list EmailMultiAlternatives :=
  match evs with
  | [] => []
  | EvSend m :: evs' => m :: sent_messages evs'
  | _ :: evs' => sent_messages evs'
  end.

Fixpoint created_records (evs : list Event) : list SentDrip :=
  match evs with
  | [] => []
  | EvCreateSentDrip sd :: evs' => sd :: created_records evs'
  | _ :: evs' => created_records evs'
  end.

(** The sender the settings provide: [DRIP_FROM_EMAIL] when that attribute
    exists, else [DEFAULT_FROM_EMAIL], and nothing when neither does. *)
Definition configured_sender (st : Settings) : pystr :=
  match DRIP_FROM_EMAIL st, DEFAULT_FROM_EMAIL st with
  | Some v, _ => v
  | None, Some v => v
  | None, None => None
  end.

(** The sender rule in the words of the specification: when neither the
    instance nor the settings give a sender address, [build_email] raises
    before anything is rendered, and no Sent Record is made. *)
Definition fails_before_render_without_sender (env : Env) (s : St)
    (u : User) (send : bool) : Prop :=
  truthy (from_email (snd s)) = false ->
  truthy (configured_sender (settings env)) = false ->
  exists e s',
    build_email env u send s = (Raise e, s')
    /\ log (fst s') = log (fst s)
    /\ drip_sentdrip (fst s') = drip_sentdrip (fst s).

(** Settings whose default sender is set to [None]. *)
Definition senderless_env : Env :=
  {| settings := {| DRIP_FROM_EMAIL := None; DEFAULT_FROM_EMAIL := Some None |};
     wall_clock := fun n => (1000 + Z.of_nat n)%Z;
     Template_render := verbatim_render;
     strip_tags := regex_strip_tags;
     transport := fun _ => true |}.

(** Settings without the attribute [DEFAULT_FROM_EMAIL]. *)
Definition bare_env : Env :=
  {| settings := {| DRIP_FROM_EMAIL := None; DEFAULT_FROM_EMAIL := None |};
     wall_clock := fun n => (1000 + Z.of_nat n)%Z;
     Template_render := verbatim_render;
     strip_tags := regex_strip_tags;
     transport := fun _ => true |}.

(** A transport that refuses every message. *)
Definition offline_env : Env :=
  {| settings := demo_settings;
     wall_clock := fun n => (1000 + Z.of_nat n)%Z;
     Template_render := verbatim_render;
     strip_tags := regex_strip_tags;
     transport := fun _ => false |}.

(** An instance with both templates and no sender address. *)
Definition senderless_drip : DripBase :=
  {| __class__ := DripBase_class;
     drip_model := welcome;
     name := Some "welcome";
     from_email := None;
     from_email_name := None;
     subject_template := Some "Hello";
     body_template := Some "Welcome";
     now_shift_kwargs := ∅;
     _queryset := None |}.

(** An instance built with a name and nothing else. *)
Definition anonymous_drip : DripBase :=
  {| __class__ := DripBase_class;
     drip_model := welcome;
     name := Some "welcome";
     from_email := None;
     from_email_name := None;
     subject_template := None;
     body_template := None;
     now_shift_kwargs := ∅;
     _queryset := None |}.

Definition only_name : Kwargs :=
  {| kw_name := Some (Some "welcome");
     kw_from_email := None;
     kw_from_email_name := None;
     kw_subject_template := None;
     kw_body_template := None;
     kw_now_shift_kwargs := None |}.

(** The attributes fixed at construction, the sender address apart. *)
Definition configuration_kept (d d' : DripBase) : Prop :=
  name d' = name d
  /\ from_email_name d' = from_email_name d
  /\ subject_template d' = subject_template d
  /\ body_template d' = body_template d
  /\ now_shift_kwargs d' = now_shift_kwargs d.

(** Immutability in the words of the specification: name, sender address,
    sender display name, templates and offset are what they were. *)
Definition attributes_kept (d d' : DripBase) : Prop :=
  configuration_kept d d' /\ from_email d' = from_email d.

(** The sender address is what it was, or it was unset and is now the
    configured one. *)
Definition sender_kept_or_resolved (env : Env) (d d' : DripBase) : Prop :=
  from_email d' = from_email d
  \/ (truthy (from_email d) = false
      /\ exists fallback,
           DEFAULT_FROM_EMAIL (settings env) = Some fallback
           /\ from_email d'
              = default fallback (DRIP_FROM_EMAIL (settings env))).

Definition attributes_kept_up_to_sender (env : Env) (d d' : DripBase) : Prop :=
  configuration_kept d d' /\ sender_kept_or_resolved env d d'.

(** The missing-template rule in the words of the specification: an
    instance constructed from these arguments, with a name and without one of
    the templates, is constructed without error, and the missing template
    makes the build of a message fail. *)
Definition missing_template_fails_at_build (env : Env) (cls : DripClass)
    (drip : Drip) (kwargs : Kwargs) (w : World) (u : User) (send : bool)
    : Prop :=
  exists d,
    __init__ cls drip kwargs = Return d
    /\ (subject_template d = None \/ body_template d = None ->
        exists e s', build_email env u send (w, d) = (Raise e, s')).

(** ** Definitions for the further properties *)

(** How often [DripEmail.email] renders a body that renders to [b]. *)
Definition body_renders (b : string) : nat :=
  match b with
  | EmptyString => 3
  | String _ _ => 1
  end.

Definition invariantly (R : St -> St -> Prop) {A} (m : M St A) : Prop :=
  forall s, R s (snd (m s)).

Definition same_tables (w w' : World) : Prop :=
  auth_user w' = auth_user w
  /\ drip_querysetrule w' = drip_querysetrule w.

Definition quiet (s s' : St) : Prop :=
  same_tables (fst s) (fst s')
  /\ drip_sentdrip (fst s') = drip_sentdrip (fst s)
  /\ ticks (fst s) <= ticks (fst s')
  /\ drip_model (snd s') = drip_model (snd s)
  /\ exists evs,
       log (fst s') = log (fst s) ++ evs
       /\ created_records evs = []
       /\ sent_messages evs = [].

Definition advances (s s' : St) : Prop :=
  same_tables (fst s) (fst s')
  /\ ticks (fst s) <= ticks (fst s')
  /\ drip_model (snd s') = drip_model (snd s)
  /\ exists evs,
       log (fst s') = log (fst s) ++ evs
       /\ drip_sentdrip (fst s') = drip_sentdrip (fst s) ++ created_records evs
       /\ Forall (fun sd => sd_drip sd = drip_pk (drip_model (snd s)))
                 (created_records evs)
       /\ length (sent_messages evs) = length (created_records evs).

(** A row of the campaign table as [drip/signals.py] reads it: the campaign
    and the content type whose creation triggers it, if any. *)
Record DripRow := { row_model : Drip; trigger_model : option Z }.

(** [Drip.objects.filter(enabled=True, trigger_model=content_type)]. *)
Definition triggered_by (content_type : Z) (row : DripRow) : bool :=
  enabled (row_model row)
  && match trigger_model row with
     | Some ct => (ct =? content_type)%Z
     | None => false
     end.

Section Signals.
Context (env : Env).
(** [drip.drip], the instance a campaign row makes of itself each time the
    property is read; it is defined in [drip/models.py]. *)
Context (drip_property : DripRow -> Outcome DripBase).

(** [drip.drip.run()]: the instance is dropped after the call. *)
Definition run_row (drip : DripRow) : M World (option Z) :=
  fun w =>
    match drip_property drip with
    | Return d => let r := run env (w, d) in (fst r, fst (snd r))
    | Raise e => (Raise e, w)
    end.

Fixpoint run_rows (drips : list DripRow) : M World unit :=
  match drips with
  | [] => ret tt
  | drip :: drips' => run_row drip ;;; run_rows drips'
  end.

(** [post_save_handler(sender, instance, created)], with [content_type] the
    content type of [instance] and [Drip_objects] the campaign table. *)
Definition post_save_handler (Drip_objects : list DripRow)
    (content_type : Z) (created : bool) : M World unit :=
  if created then
    let drips := List.filter (triggered_by content_type) Drip_objects in
    run_rows drips
  else ret tt.
End Signals.

(** ** Concrete inputs for the further properties *)

Abbreviation first_subject :=
  (DripEmail.subject demo_env (demo_world, DripEmail.new demo_drip alice)).

Abbreviation first_email :=
  (DripEmail.email demo_env (demo_world, DripEmail.new demo_drip alice)).

(** An instance whose body template is the empty text. *)
Definition blank_body_drip : DripBase :=
  {| __class__ := DripBase_class;
     drip_model := welcome;
     name := Some "welcome";
     from_email := Some "team@example.com";
     from_email_name := None;
     subject_template := Some "Hello";
     body_template := Some EmptyString;
     now_shift_kwargs := ∅;
     _queryset := None |}.

Abbreviation blank_body_email :=
  (DripEmail.email demo_env (demo_world, DripEmail.new blank_body_drip alice)).

Abbreviation preview :=
  (build_email demo_env alice false (demo_world, demo_drip)).

Definition cached_demo_drip : DripBase :=
  set_queryset (QDistinct User_objects) demo_drip.

Abbreviation refused_send :=
  (send offline_env (demo_world, cached_demo_drip)).

Abbreviation backfill_run :=
  (run backfill_env (backfill_world, demo_drip)).

(** A rule on a field the user table does not have, and tables with it. *)
Definition broken_rule : QuerySetRule :=
  {| rule_drip := 7; method_type := filter_method;
     rule_lookup := fun _ => None |}.

Definition broken_rule_world : World :=
  {| auth_user := [alice; bob];
     drip_sentdrip := [];
     drip_querysetrule := [broken_rule];
     ticks := 0;
     log := [] |}.

(** Tables where alice has a record of another campaign, older than any
    reading of the demo clock, and bob a record of the welcome campaign dated
    at the first reading of that clock. *)
Definition mixed_records_world : World :=
  {| auth_user := [alice; bob];
     drip_sentdrip :=
       [ {| sd_date := 500; sd_drip := 9; sd_user := 1;
            sd_from_email := Some "team@example.com";
            sd_from_email_name := None;
            sd_subject := "Offer"; sd_body := "Offer" |};
         {| sd_date := 1000; sd_drip := 7; sd_user := 2;
            sd_from_email := Some "team@example.com";
            sd_from_email_name := Some "Team";
            sd_subject := "Hello"; sd_body := "Welcome" |} ];
     drip_querysetrule := [];
     ticks := 0;
     log := [] |}.

Definition fortnight_kwargs : Kwargs :=
  {| kw_name := Some (Some "welcome");
     kw_from_email := None;
     kw_from_email_name := None;
     kw_subject_template := None;
     kw_body_template := None;
     kw_now_shift_kwargs := Some {[ "fortnights" := 1%Z ]} |}.

Definition fortnight_drip : DripBase :=
  {| __class__ := DripBase_class;
     drip_model := welcome;
     name := Some "welcome";
     from_email := None;
     from_email_name := None;
     subject_template := None;
     body_template := None;
     now_shift_kwargs := {[ "fortnights" := 1%Z ]};
     _queryset := None |}.

(** A campaign table: [welcome] is triggered by content type 3, the paused
    campaign too, and a third campaign by content type 4. *)
Definition campaign_table : list DripRow :=
  [ {| row_model := welcome; trigger_model := Some 3%Z |};
    {| row_model := {| drip_pk := 8; enabled := false |};
       trigger_model := Some 3%Z |};
    {| row_model := {| drip_pk := 9; enabled := true |};
       trigger_model := Some 4%Z |} ].

Definition demo_drip_property (row : DripRow) : Outcome DripBase :=
  Return {| __class__ := DripBase_class;
            drip_model := row_model row;
            name := Some "campaign";
            from_email := Some "team@example.com";
            from_email_name := None;
            subject_template := Some "Hello";
            body_template := Some "Welcome";
            now_shift_kwargs := ∅;
            _queryset := None |}.

Abbreviation signalled :=
  (post_save_handler demo_env demo_drip_property campaign_table 3 true demo_world).

(** * Properties *)

(** ** Reasoning about computations *)

Ltac unfold_m :=
  unfold bind, ret, raise, gets, modify, lift, self_, assign, emit_event,
    conditional_now in *.

Lemma bind_Return {S A B} (m : M S A) (k : A -> M S B) s a s' :
  m s = (Return a, s') -> bind m k s = k a s'.
Proof. intros H. unfold bind. now rewrite H. Qed.

(** ** The constructor *)

Lemma init_Return cls drip kw d :
  __init__ cls drip kw = Return d ->
  truthy (name d) = true /\ _queryset d = None /\ drip_model d = drip
  /\ __class__ d = cls.
Proof.
  unfold __init__.
  destruct (truthy (default (cls_name cls) (kw_name kw))) eqn:Hn; simpl;
    intros H; [|discriminate].
  injection H as <-. simpl. auto.
Qed.

Lemma init_walk_kwargs self shift :
  truthy (name self) = true ->
  __init__ (__class__ self) (drip_model self) (walk_kwargs self shift) =
  Return {| __class__ := __class__ self;
            drip_model := drip_model self;
            name := name self;
            from_email := cls_from_email (__class__ self);
            from_email_name := cls_from_email_name (__class__ self);
            subject_template := cls_subject_template (__class__ self);
            body_template := cls_body_template (__class__ self);
            now_shift_kwargs := {[ "days" := shift ]};
            _queryset := None |}.
Proof. intros H. unfold __init__, walk_kwargs. simpl. now rewrite H. Qed.

(** ** Time shifting *)

Lemma timedelta_days (shift : Z) :
  timedelta {[ "days" := shift ]} = Return (shift * 86400000000)%Z.
Proof. unfold timedelta. rewrite map_fold_singleton. reflexivity. Qed.

Lemma timedelta_empty : timedelta ∅ = Return 0%Z.
Proof. reflexivity. Qed.

Lemma walk_loop_siblings shifts : forall acc w d,
  truthy (name d) = true ->
  walk_loop shifts acc (w, d) =
  (Return (acc ++ map (sibling d) shifts), (w, d)).
Proof.
  induction shifts as [|shift shifts IH]; intros acc w d Hn; simpl.
  - unfold ret. now rewrite app_nil_r.
  - unfold bind at 1. unfold gets at 1. simpl.
    unfold bind at 1. unfold lift at 1.
    rewrite (init_walk_kwargs d shift Hn). fold (sibling d shift).
    rewrite IH by exact Hn. now rewrite <- app_assoc.
Qed.

Lemma length_range a b : length (range a b) = Z.to_nat (b - a).
Proof. unfold range. now rewrite length_map, length_seq. Qed.

Lemma range_lookup a b (i : nat) :
  (i < Z.to_nat (b - a))%nat -> range a b !! i = Some (a + Z.of_nat i)%Z.
Proof.
  intros Hi. unfold range. rewrite list_lookup_fmap.
  rewrite lookup_seq_lt by exact Hi. reflexivity.
Qed.

Lemma now_unshifted env w d :
  now_shift_kwargs d = ∅ ->
  now env (w, d) = (Return (wall_clock env (ticks w)), (tick w, d)).
Proof.
  intros H. unfold now. unfold_m. simpl. rewrite H, timedelta_empty.
  simpl. now rewrite Z.add_0_r.
Qed.

Example now_one_day_back :
  fst (now backfill_env (backfill_world, yesterday_drip))
  = Return microseconds_per_day.
Proof. vm_compute. reflexivity. Qed.

(** ** [walk] *)

(** C5: for non-negative [into_past] and [into_future], [walk] returns
    exactly [into_past + into_future] instances and leaves the instance and
    the world alone; the [i]-th one is a fresh instance (no cached queryset)
    of the same class, on the same campaign and with the same name, whose
    offset is the day shift [-into_past + i], so that its [now()] is the
    real time plus that many days, as long as the shift and the shifted
    time are in the range of [timedelta] and [datetime].  [walk(0, 0)] is
    empty. *)
Theorem walk_yields_one_sibling_per_day env w d (into_past into_future : Z) :
  truthy (name d) = true ->
  (0 <= into_past)%Z -> (0 <= into_future)%Z ->
  exists walked_range,
    walk into_past into_future (w, d) = (Return walked_range, (w, d))
    /\ Z.of_nat (length walked_range) = (into_past + into_future)%Z
    /\ (forall i : nat, (i < length walked_range)%nat ->
        exists d', walked_range !! i = Some d'
          /\ __class__ d' = __class__ d
          /\ drip_model d' = drip_model d
          /\ name d' = name d
          /\ now_shift_kwargs d' = {[ "days" := (- into_past + Z.of_nat i)%Z ]}
          /\ _queryset d' = None
          /\ forall w',
               (- timedelta_max_days <= - into_past + Z.of_nat i
                <= timedelta_max_days)%Z ->
               (0 <= wall_clock env (ticks w')
                     + (- into_past + Z.of_nat i) * microseconds_per_day
                <= datetime_max)%Z ->
               now env (w', d') =
               (Return (wall_clock env (ticks w')
                        + (- into_past + Z.of_nat i) * microseconds_per_day)%Z,
                (tick w', d')))
    /\ (into_past = 0%Z -> into_future = 0%Z -> walked_range = []).
Proof.
  intros Hn Hp Hf.
  exists (map (sibling d) (range (- into_past) into_future)).
  split; [|split; [|split]].
  - unfold walk. now rewrite walk_loop_siblings.
  - rewrite length_map, length_range. lia.
  - intros i Hi. rewrite length_map, length_range in Hi.
    exists (sibling d (- into_past + Z.of_nat i)%Z).
    split.
    { rewrite list_lookup_fmap, range_lookup by exact Hi. reflexivity. }
    repeat (split; [reflexivity|]).
    intros w' _ _. unfold now. unfold_m. simpl.
    rewrite timedelta_days. reflexivity.
  - intros -> ->. reflexivity.
Qed.

(** C5, at a concrete instance: [walk(2, 1)] on a named instance. *)
Lemma walk_yields_one_sibling_per_day_witness :
  exists walked_range,
    walk 2 1 (demo_world, demo_drip) = (Return walked_range, (demo_world, demo_drip))
    /\ Z.of_nat (length walked_range) = 3%Z.
Proof.
  destruct (walk_yields_one_sibling_per_day demo_env demo_world demo_drip 2 1)
    as (l & H1 & H2 & _); [reflexivity | lia | lia |].
  exists l. split; [exact H1 | exact H2].
Defined.

(** ** What a method may do to the instance *)

Section Preservation.
Context (R : DripBase -> DripBase -> Prop).
Context (R_refl : forall d, R d d).
Context (R_trans : forall d1 d2 d3, R d1 d2 -> R d2 d3 -> R d1 d3).

Lemma preserves_ret {A} (a : A) : preserves R (ret a).
Proof using R_refl. intros s. apply R_refl. Qed.

Lemma preserves_raise {A} e : preserves R (@raise St A e).
Proof using R_refl. intros s. apply R_refl. Qed.

Lemma preserves_lift {A} (o : Outcome A) : preserves R (lift o).
Proof using R_refl. intros s. apply R_refl. Qed.

Lemma preserves_gets {A} (f : St -> A) : preserves R (gets f).
Proof using R_refl. intros s. apply R_refl. Qed.

Lemma preserves_emit_event e : preserves R (emit_event e).
Proof using R_refl. intros s. apply R_refl. Qed.

Lemma preserves_world_update (f : St -> World) :
  preserves R (modify (fun s : St => (f s, snd s))).
Proof using R_refl. intros s. apply R_refl. Qed.

Lemma preserves_conditional_now env : preserves R (conditional_now env).
Proof using R_refl. intros s. apply R_refl. Qed.

Lemma preserves_on_builder {A} e (m : M DripEmail.St A) :
  preserves R (on_builder e m).
Proof using R_refl. intros s. apply R_refl. Qed.

Lemma preserves_assign (f : DripBase -> DripBase) :
  (forall d, R d (f d)) -> preserves R (assign f).
Proof. intros H s. apply H. Qed.

Lemma preserves_bind {A B} (m : M St A) (k : A -> M St B) :
  preserves R m -> (forall a, preserves R (k a)) -> preserves R (bind m k).
Proof using R_trans.
  intros Hm Hk s. unfold bind. specialize (Hm s).
  destruct (m s) as [[a|e] s1]; simpl in *.
  - eapply R_trans; [exact Hm | apply Hk].
  - exact Hm.
Qed.

Lemma preserves_if {A} (b : bool) (m1 m2 : M St A) :
  preserves R m1 -> preserves R m2 -> preserves R (if b then m1 else m2).
Proof. now destruct b. Qed.
End Preservation.

Ltac preserves_step :=
  first
    [ apply preserves_bind; [assumption | | intros ?]
    | apply preserves_ret; assumption
    | apply preserves_raise; assumption
    | apply preserves_lift; assumption
    | apply preserves_emit_event; assumption
    | apply preserves_conditional_now; assumption
    | apply preserves_on_builder; assumption
    | apply preserves_world_update; assumption
    | apply preserves_gets; assumption
    | apply preserves_if ].

Ltac preserves_auto := repeat preserves_step.

Section ExactFrame.
Context (env : Env).

Lemma now_keeps_self : preserves eq (now env).
Proof.
  assert (Hr : forall d : DripBase, d = d) by reflexivity.
  assert (Ht : forall d1 d2 d3 : DripBase, d1 = d2 -> d2 = d3 -> d1 = d3)
    by (intros; congruence).
  unfold now, self_. preserves_auto.
Qed.

Lemma apply_rules_keeps_self rules : forall qs,
  preserves eq (apply_rules env rules qs).
Proof.
  assert (Hr : forall d : DripBase, d = d) by reflexivity.
  assert (Ht : forall d1 d2 d3 : DripBase, d1 = d2 -> d2 = d3 -> d1 = d3)
    by (intros; congruence).
  induction rules as [|r rules IH]; intros qs; simpl.
  - preserves_auto.
  - apply preserves_bind; [exact Ht | | intros qs'; apply IH].
    unfold apply. apply preserves_bind; [exact Ht | apply now_keeps_self |].
    intros t. destruct (rule_lookup r t); preserves_auto.
Qed.

Lemma apply_queryset_rules_keeps_self qs :
  preserves eq (apply_queryset_rules env qs).
Proof.
  assert (Hr : forall d : DripBase, d = d) by reflexivity.
  assert (Ht : forall d1 d2 d3 : DripBase, d1 = d2 -> d2 = d3 -> d1 = d3)
    by (intros; congruence).
  unfold apply_queryset_rules, self_. preserves_auto.
  apply apply_rules_keeps_self.
Qed.

Lemma walk_keeps_self into_past into_future :
  preserves eq (walk into_past into_future).
Proof.
  assert (Hr : forall d : DripBase, d = d) by reflexivity.
  assert (Ht : forall d1 d2 d3 : DripBase, d1 = d2 -> d2 = d3 -> d1 = d3)
    by (intros; congruence).
  unfold walk. generalize (range (- into_past) into_future) as shifts.
  generalize (@nil DripBase) as acc.
  intros acc shifts. revert acc.
  induction shifts as [|shift shifts IH]; intros acc; simpl.
  - preserves_auto.
  - preserves_auto. apply IH.
Qed.
End ExactFrame.

(** ** [run] *)

(** C3: on a disabled campaign [run] returns [None] at once and leaves the
    whole state as it was: no rules or candidate query, no Sent Record, no
    message, no clock reading, no change to the instance.  On an enabled
    campaign [run] is [prune], then [send] on the state [prune] left, and
    its result is the count [send] returned. *)
Theorem run_disabled_noop_enabled_prune_send env w d :
  run env (w, d) =
    (if enabled (drip_model d)
     then (prune env ;;; count <- send env ;; ret (Some count)) (w, d)
     else (Return None, (w, d)))
  /\ (enabled (drip_model d) = false ->
      let s' := snd (run env (w, d)) in
      fst (run env (w, d)) = Return None
      /\ log (fst s') = log w
      /\ drip_sentdrip (fst s') = drip_sentdrip w
      /\ snd s' = d)
  /\ (enabled (drip_model d) = true ->
      forall s1 count s2,
        prune env (w, d) = (Return tt, s1) ->
        send env s1 = (Return count, s2) ->
        run env (w, d) = (Return (Some count), s2)).
Proof.
  assert (Hrun : run env (w, d) =
    (if enabled (drip_model d)
     then (prune env ;;; count <- send env ;; ret (Some count)) (w, d)
     else (Return None, (w, d)))).
  { unfold run. unfold bind at 1. unfold self_, gets. simpl.
    destruct (enabled (drip_model d)); reflexivity. }
  split; [exact Hrun|]. split.
  - intros Hd. rewrite Hrun, Hd. simpl. auto.
  - intros He s1 count s2 Hp Hs. rewrite Hrun, He.
    rewrite (bind_Return _ _ _ _ _ Hp), (bind_Return _ _ _ _ _ Hs).
    reflexivity.
Qed.

(** C3, at a concrete instance: a disabled campaign over the demo tables. *)
Lemma run_disabled_noop_enabled_prune_send_witness :
  fst (run demo_env (demo_world, disabled_drip)) = Return None
  /\ log (fst (snd (run demo_env (demo_world, disabled_drip)))) = []
  /\ drip_sentdrip (fst (snd (run demo_env (demo_world, disabled_drip)))) = []
  /\ snd (snd (run demo_env (demo_world, disabled_drip))) = disabled_drip.
Proof.
  exact (proj1 (proj2 (run_disabled_noop_enabled_prune_send
                         demo_env demo_world disabled_drip)) eq_refl).
Defined.

Example run_demo_sends_two :
  fst (run demo_env (demo_world, demo_drip)) = Return (Some 2%Z).
Proof. vm_compute. reflexivity. Qed.

Example run_demo_again_sends_none :
  fst (run demo_env (fst (snd (run demo_env (demo_world, demo_drip))),
                     demo_drip))
  = Return (Some 0%Z).
Proof. vm_compute. reflexivity. Qed.

(** ** [get_queryset] *)

Lemma get_queryset_cached env w d qs :
  _queryset d = Some qs -> get_queryset env (w, d) = (Return qs, (w, d)).
Proof. intros H. unfold get_queryset. unfold_m. simpl. now rewrite H. Qed.

Lemma apply_queryset_rules_state env qs w d :
  exists r w1, apply_queryset_rules env qs (w, d) = (r, (w1, d)).
Proof.
  pose proof (apply_queryset_rules_keeps_self env qs (w, d)) as Hk.
  destruct (apply_queryset_rules env qs (w, d)) as [r [w1 d1]].
  simpl in Hk. subst d1. eauto.
Qed.

Lemma get_queryset_first env w d :
  _queryset d = None ->
  get_queryset env (w, d) =
  match apply_queryset_rules env (cls_queryset (__class__ d)) (w, d) with
  | (Return qs, (w1, _)) =>
      (Return (QDistinct qs), (w1, set_queryset (QDistinct qs) d))
  | (Raise e, (w1, _)) => (Raise e, (w1, d))
  end.
Proof.
  intros H. unfold get_queryset, queryset.
  unfold bind at 1. unfold self_ at 1. unfold gets at 1. simpl. rewrite H.
  unfold bind at 1. unfold self_ at 1. unfold gets at 1. simpl.
  pose proof (apply_queryset_rules_keeps_self env
                (cls_queryset (__class__ d)) (w, d)) as Hk.
  unfold bind at 1.
  destruct (apply_queryset_rules env (cls_queryset (__class__ d)) (w, d))
    as [[qs|e] [w1 d1]]; simpl in Hk; subst d1; reflexivity.
Qed.

Lemma get_queryset_Return_state env s qs s1 :
  get_queryset env s = (Return qs, s1) ->
  _queryset (snd s1) = Some qs
  /\ drip_model (snd s1) = drip_model (snd s).
Proof.
  destruct s as [w d]. intros H. simpl.
  destruct (_queryset d) as [q0|] eqn:Hq.
  - rewrite (get_queryset_cached env w d q0 Hq) in H.
    injection H as <- <-. auto.
  - rewrite (get_queryset_first env w d Hq) in H.
    destruct (apply_queryset_rules_state env (cls_queryset (__class__ d)) w d)
      as (r & w1 & Hr).
    rewrite Hr in H. destruct r as [q1|e]; [|discriminate].
    injection H as <- <-. auto.
Qed.



(** ** [prune] *)

Lemma existsb_Zeqb (x : Z) (l : list Z) :
  existsb (Z.eqb x) l = true <-> In x l.
Proof.
  rewrite existsb_exists. split.
  - intros (y & Hy & He). apply Z.eqb_eq in He. now subst.
  - intros H. exists x. split; [exact H | apply Z.eqb_refl].
Qed.

(** What the exclusion built by [prune] denotes on any tables: the
    restriction of the subquery to the target ids changes nothing for a
    user of the target itself. *)
Lemma rows_QExcludeSent w date_lt drip target u :
  In u (rows w (QExcludeSent date_lt drip target target)) <->
  In u (rows w target) /\ ~ sent_before w drip date_lt u.
Proof.
  simpl. rewrite filter_In, negb_true_iff. split.
  - intros [Hu Hex]. split; [exact Hu|].
    intros (sd & Hsd & Hid & Hdrip & Hdate).
    assert (Ht : existsb (Z.eqb (user_id u))
                   (map sd_user
                      (List.filter
                         (sent_matches date_lt drip (map user_id (rows w target)))
                         (drip_sentdrip w))) = true).
    { apply existsb_Zeqb. apply in_map_iff. exists sd. split; [exact Hid|].
      apply filter_In. split; [exact Hsd|].
      unfold sent_matches. rewrite !andb_true_iff. repeat split.
      - now apply Z.ltb_lt.
      - now apply Z.eqb_eq.
      - apply existsb_Zeqb. rewrite Hid. now apply in_map. }
    congruence.
  - intros [Hu Hno]. split; [exact Hu|].
    apply not_true_is_false. intros Ht. apply Hno.
    apply existsb_Zeqb, in_map_iff in Ht. destruct Ht as (sd & Hid & Hsd).
    apply filter_In in Hsd. destruct Hsd as [Hsd Hm].
    unfold sent_matches in Hm. rewrite !andb_true_iff in Hm.
    destruct Hm as [[Hdate Hdrip] _].
    exists sd. repeat split; [exact Hsd | exact Hid | |].
    + now apply Z.eqb_eq.
    + now apply Z.ltb_lt.
Qed.

Lemma prune_after_get_queryset env s target s1 :
  get_queryset env s = (Return target, s1) ->
  prune env s =
  (Return tt,
   (tick (fst s1),
    set_queryset (QExcludeSent (wall_clock env (ticks (fst s1)))
                               (drip_pk (drip_model (snd s1))) target target)
                 (snd s1))).
Proof.
  intros H. destruct (get_queryset_Return_state env s target s1 H) as [Hq _].
  unfold prune. rewrite (bind_Return _ _ _ _ _ H).
  destruct s1 as [w1 d1]. simpl in Hq.
  unfold bind at 1. unfold conditional_now at 1. simpl.
  unfold bind at 1. unfold self_ at 1. unfold gets at 1. simpl.
  unfold bind at 1. rewrite (get_queryset_cached env (tick w1) d1 target Hq).
  reflexivity.
Qed.

(** C1, as the code has it: when the candidate set resolves to [target],
    [prune] reads the real clock once, without the instance's offset, and
    replaces the cached set by [target] minus the users who have a
    Sent Record of this campaign dated strictly before that reading.  On any
    tables the new set holds exactly the users of [target] without such a
    record, so none of its users has one, and it is what [get_queryset]
    returns from then on. *)
Theorem prune_excludes_sent_before_real_now env s target s1 :
  get_queryset env s = (Return target, s1) ->
  let real_now := wall_clock env (ticks (fst s1)) in
  let drip := drip_pk (drip_model (snd s)) in
  exists pruned s',
    prune env s = (Return tt, s')
    /\ get_queryset env s' = (Return pruned, s')
    /\ (forall w u,
          In u (rows w pruned) <->
          In u (rows w target) /\ ~ sent_before w drip real_now u)
    /\ (forall w u, In u (rows w pruned) -> ~ sent_before w drip real_now u).
Proof.
  intros H real_now drip.
  destruct (get_queryset_Return_state env s target s1 H) as [Hq Hm].
  exists (QExcludeSent real_now drip target target).
  eexists. split; [|split; [|split]].
  - rewrite (prune_after_get_queryset env s target s1 H).
    rewrite Hm. reflexivity.
  - apply get_queryset_cached. reflexivity.
  - intros w u. apply rows_QExcludeSent.
  - intros w u Hu. now apply rows_QExcludeSent in Hu.
Qed.

(** C1, at a concrete instance: the backfill run, where alice, who got the
    campaign half a day before the real time, is pruned. *)
Lemma prune_excludes_sent_before_real_now_witness :
  exists pruned s',
    prune backfill_env (backfill_world, yesterday_drip) = (Return tt, s')
    /\ forall u, In u (rows backfill_world pruned) <->
                 In u (rows backfill_world (QDistinct User_objects))
                 /\ ~ sent_before backfill_world 7
                        (wall_clock backfill_env 0) u.
Proof.
  destruct (prune_excludes_sent_before_real_now backfill_env
              (backfill_world, yesterday_drip) (QDistinct User_objects)
              (emit (EvRulesQuery 7) backfill_world,
               set_queryset (QDistinct User_objects) yesterday_drip)
              ltac:(vm_compute; reflexivity))
    as (pruned & s' & Hp & _ & Hrows & _).
  exists pruned, s'. split; [exact Hp|].
  intros u. exact (Hrows backfill_world u).
Defined.

(** C1 as worded fails on the backfill run: alice has no Sent Record before
    the instance's effective [now()], one day back, and is removed all the
    same, because the record is older than the real time. *)
Lemma prune_ignores_offset_counterexample :
  ~ prune_removes_before_effective_now backfill_env
      (backfill_world, yesterday_drip).
Proof.
  intros Hclaim.
  pose (pruned := QExcludeSent (2 * microseconds_per_day + 0)%Z 7
                    (QDistinct User_objects) (QDistinct User_objects)).
  specialize (Hclaim (1 * microseconds_per_day)%Z (QDistinct User_objects)
                (emit (EvRulesQuery 7) backfill_world,
                 set_queryset (QDistinct User_objects) yesterday_drip)
                pruned
                (tick (emit (EvRulesQuery 7) backfill_world),
                 set_queryset pruned yesterday_drip)
                ltac:(vm_compute; reflexivity) ltac:(vm_compute; reflexivity)
                ltac:(vm_compute; reflexivity) ltac:(vm_compute; reflexivity)
                alice).
  destruct Hclaim as [_ Hback].
  assert (Hin : In alice (rows (tick (emit (EvRulesQuery 7) backfill_world))
                               pruned)).
  { apply Hback. split.
    - vm_compute. auto.
    - intros (sd & Hsd & _ & _ & Hdate). simpl in Hsd.
      destruct Hsd as [<- | []]. vm_compute in Hdate. discriminate. }
  vm_compute in Hin. destruct Hin as [Hin | []]. discriminate.
Qed.

(** ** [DripEmail.email] *)

Lemma emit_add_events e w : emit e w = add_events [e] w.
Proof. reflexivity. Qed.

Lemma add_events_add_events evs1 evs2 w :
  add_events evs2 (add_events evs1 w) = add_events (evs1 ++ evs2) w.
Proof. unfold add_events. simpl. now rewrite app_assoc. Qed.

Ltac email_unfold :=
  unfold DripEmail.email, DripEmail.plain, DripEmail.body, DripEmail.subject,
    DripEmail.context, DripEmail.render, DripEmail.self_, DripEmail.assign;
  unfold_m; simpl.

Ltac sender_cases d env :=
  destruct (from_email_name d) as [[|? ?]|];
  destruct (from_email d) as [[|? ?]|];
  destruct (DEFAULT_FROM_EMAIL (settings env)) as [?|];
  simpl in *; try discriminate.

Lemma email_fresh_trace env w d u s b :
  Template_render env (subject_template d) u = Some s ->
  Template_render env (body_template d) u = Some b ->
  sender_available env d = true ->
  exists e',
    DripEmail.email env (w, DripEmail.new d u) =
    (Return (built_message env d u s b),
     (add_events (EvRender (subject_template d) u
                  :: repeat (EvRender (body_template d) u) (body_renders b))
                 w, e'))
    /\ DripEmail._email e' = Some (built_message env d u s b).
Proof.
  intros Hs Hb Hav.
  unfold built_message, stored_sender, sender_available, sender_header in *.
  email_unfold. unfold EmailMultiAlternatives_init.
  rewrite Hs. simpl. rewrite Hb. simpl.
  destruct b as [|c b']; simpl; rewrite ?Hb; simpl;
    destruct (strip_tags env _) as [|c' p'] eqn:Hst; simpl;
    sender_cases d env;
    rewrite ?Hb; simpl; rewrite ?Hst; simpl; rewrite ?Hb; simpl;
    rewrite ?Hst; simpl;
    try (destruct (Nat.eqb _ _)); simpl;
    rewrite ?emit_add_events, ?add_events_add_events; simpl;
    eexists; (split; reflexivity).
Qed.

Lemma email_fresh_Raise_sender env w d u s b :
  Template_render env (subject_template d) u = Some s ->
  Template_render env (body_template d) u = Some b ->
  sender_available env d = false ->
  exists msg e',
    DripEmail.email env (w, DripEmail.new d u) =
    (Raise (AttributeError msg),
     (add_events [EvRender (subject_template d) u;
                  EvRender (body_template d) u] w, e')).
Proof.
  intros Hs Hb Hav.
  unfold sender_available, sender_header in *.
  email_unfold. unfold EmailMultiAlternatives_init.
  rewrite Hs. simpl. rewrite Hb. simpl.
  destruct b as [|c b']; simpl; rewrite ?Hb; simpl;
    destruct (strip_tags env _) as [|c' p'] eqn:Hst; simpl;
    sender_cases d env;
    rewrite ?emit_add_events, ?add_events_add_events; simpl;
    do 2 eexists; reflexivity.
Qed.

Lemma Forall_repeat_eq {A} (x : A) n : Forall (eq x) (repeat x n).
Proof. induction n; simpl; constructor; auto. Qed.

Lemma email_fresh_Return env w d u s b :
  Template_render env (subject_template d) u = Some s ->
  Template_render env (body_template d) u = Some b ->
  sender_available env d = true ->
  exists again e',
    DripEmail.email env (w, DripEmail.new d u) =
    (Return (built_message env d u s b),
     (add_events (EvRender (subject_template d) u
                  :: EvRender (body_template d) u :: again) w, e'))
    /\ Forall (eq (EvRender (body_template d) u)) again.
Proof.
  intros Hs Hb Hav.
  destruct (email_fresh_trace env w d u s b Hs Hb Hav) as (e' & He & _).
  exists (repeat (EvRender (body_template d) u) (pred (body_renders b))), e'.
  split; [|apply Forall_repeat_eq].
  rewrite He. now destruct b.
Qed.

Lemma email_fresh_Raise_subject env w d u :
  Template_render env (subject_template d) u = None ->
  exists e',
    DripEmail.email env (w, DripEmail.new d u) =
    (Raise TemplateError, (add_events [EvRender (subject_template d) u] w, e')).
Proof.
  intros Hs. email_unfold. rewrite Hs. simpl. eexists. reflexivity.
Qed.

Lemma email_fresh_Raise_body env w d u s :
  Template_render env (subject_template d) u = Some s ->
  Template_render env (body_template d) u = None ->
  exists e',
    DripEmail.email env (w, DripEmail.new d u) =
    (Raise TemplateError,
     (add_events [EvRender (subject_template d) u;
                  EvRender (body_template d) u] w, e')).
Proof.
  intros Hs Hb. email_unfold. rewrite Hs. simpl. rewrite Hb. simpl.
  rewrite ?emit_add_events, ?add_events_add_events; simpl.
  eexists. reflexivity.
Qed.

Example regex_strip_tags_unclosed :
  regex_strip_tags "a<b>c</b> d < e <f" = "ac d < e <f"%string.
Proof. reflexivity. Qed.

Lemma strip_tags_scan_length s : forall inside,
  String.length (strip_tags_scan inside s) <= String.length s.
Proof.
  induction s as [|c s IH]; intros inside; simpl; [lia|].
  destruct inside.
  - destruct (Ascii.eqb c ">"); [specialize (IH false) | specialize (IH true)];
      lia.
  - destruct (Ascii.eqb c "<").
    + destruct (has_gt s); [specialize (IH true); lia | simpl; lia].
    + simpl. specialize (IH false). lia.
Qed.

Lemma regex_strip_tags_length s :
  String.length (regex_strip_tags s) <= String.length s.
Proof. apply strip_tags_scan_length. Qed.

(** Every message a fresh builder returns is [built_message] of the two
    rendered templates. *)
Lemma email_fresh_inv env w d u m s' :
  DripEmail.email env (w, DripEmail.new d u) = (Return m, s') ->
  exists s b,
    Template_render env (subject_template d) u = Some s
    /\ Template_render env (body_template d) u = Some b
    /\ sender_available env d = true
    /\ m = built_message env d u s b.
Proof.
  intros H.
  destruct (Template_render env (subject_template d) u) as [s|] eqn:Hs.
  - destruct (Template_render env (body_template d) u) as [b|] eqn:Hb.
    + destruct (sender_available env d) eqn:Hav.
      * destruct (email_fresh_Return env w d u s b Hs Hb Hav)
          as (again & e' & He & _).
        rewrite He in H. injection H as <- _. exists s, b. auto.
      * destruct (email_fresh_Raise_sender env w d u s b Hs Hb Hav)
          as (msg & e' & He).
        rewrite He in H. discriminate.
    + destruct (email_fresh_Raise_body env w d u s Hs Hb) as (e' & He).
      rewrite He in H. discriminate.
  - destruct (email_fresh_Raise_subject env w d u Hs) as (e' & He).
    rewrite He in H. discriminate.
Qed.

(** C8: for a tag stripper that never lengthens its input, every message a
    builder returns has as its primary part the rendered body with the tags
    stripped, no longer than the rendered body; when the two lengths differ
    the raw rendered body is attached as the one [text/html] alternative,
    and when they are equal the message has no alternative at all. *)
Theorem email_plain_part_and_html_alternative env w d u m s' :
  (forall text, String.length (strip_tags env text) <= String.length text) ->
  DripEmail.email env (w, DripEmail.new d u) = (Return m, s') ->
  exists b,
    Template_render env (body_template d) u = Some b
    /\ msg_body m = strip_tags env b
    /\ String.length (msg_body m) <= String.length b
    /\ (String.length (strip_tags env b) <> String.length b ->
        alternatives m = [(b, "text/html")])
    /\ (String.length (strip_tags env b) = String.length b ->
        alternatives m = []).
Proof.
  intros Hlen H.
  destruct (email_fresh_inv env w d u m s' H) as (s & b & _ & Hb & _ & ->).
  exists b. split; [exact Hb|]. split; [reflexivity|].
  split; [apply Hlen|]. unfold built_message. simpl.
  destruct (Nat.eqb_spec (String.length (strip_tags env b)) (String.length b));
    split; intros; congruence.
Qed.

(** C8, at a concrete instance: the body [<p>Welcome</p>] goes out as the
    plain text [Welcome] with the markup as alternative. *)
Lemma email_plain_part_and_html_alternative_witness :
  exists b,
    Template_render demo_env (body_template demo_drip) alice = Some b
    /\ msg_body (built_message demo_env demo_drip alice "Hello" "<p>Welcome</p>")
       = strip_tags demo_env b.
Proof.
  destruct (email_plain_part_and_html_alternative demo_env demo_world
              demo_drip alice
              (built_message demo_env demo_drip alice "Hello" "<p>Welcome</p>")
              (snd (DripEmail.email demo_env
                      (demo_world, DripEmail.new demo_drip alice)))
              regex_strip_tags_length
              ltac:(vm_compute; reflexivity))
    as (b & Hb & Hplain & _).
  exists b. split; [exact Hb | exact Hplain].
Defined.

(** ** [build_email] *)

Lemma build_email_eq env u send w d :
  build_email env u send (w, d) =
  match resolve_from_email env d with
  | Raise e => (Raise e, (w, d))
  | Return d1 =>
      match DripEmail.email env (w, DripEmail.new d1 u) with
      | (Raise e, (w1, _)) => (Raise e, (w1, d1))
      | (Return m, (w1, _)) =>
          if send then
            let sd := sent_record env w1 d1 u m in
            (if transport env m then Return m else Raise TransportError,
             (add_events [EvCreateSentDrip sd; EvSend m]
                         (insert_sentdrip sd (tick w1)), d1))
          else (Return m, (w1, d1))
      end
  end.
Proof.
  unfold build_email, resolve_from_email, get_email_instance, SentDrip_create,
    email_send, on_builder, sent_record.
  unfold_m. simpl.
  destruct (truthy (from_email d)); simpl.
  - destruct (DripEmail.email env (w, DripEmail.new d u)) as [[m|e] [w1 e1]];
      simpl; [|reflexivity].
    destruct send; simpl; [|reflexivity].
    rewrite !emit_add_events, add_events_add_events. simpl.
    destruct (transport env m); reflexivity.
  - destruct (DEFAULT_FROM_EMAIL (settings env)) as [fallback|]; simpl;
      [|reflexivity].
    destruct (DripEmail.email env (w, DripEmail.new _ u)) as [[m|e] [w1 e1]];
      simpl; [|reflexivity].
    destruct send; simpl; [|reflexivity].
    rewrite !emit_add_events, add_events_add_events. simpl.
    destruct (transport env m); reflexivity.
Qed.

Lemma Forall_rendering_again ev again :
  Forall (eq ev) again -> rendering ev -> Forall rendering again.
Proof.
  intros H Hev. induction H as [|x l Hx _ IH]; constructor; [|exact IH].
  now subst x.
Qed.

(** What a fresh builder does to the world: it only renders. *)
Lemma email_fresh_world env w d u :
  exists r renders e',
    DripEmail.email env (w, DripEmail.new d u) = (r, (add_events renders w, e'))
    /\ Forall rendering renders
    /\ r <> Raise TransportError.
Proof.
  destruct (Template_render env (subject_template d) u) as [s|] eqn:Hs.
  - destruct (Template_render env (body_template d) u) as [b|] eqn:Hb.
    + destruct (sender_available env d) eqn:Hav.
      * destruct (email_fresh_Return env w d u s b Hs Hb Hav)
          as (again & e' & He & Hagain).
        do 3 eexists. split; [exact He|]. split; [|discriminate].
        repeat (constructor; [exact I|]).
        now apply (Forall_rendering_again (EvRender (body_template d) u)).
      * destruct (email_fresh_Raise_sender env w d u s b Hs Hb Hav)
          as (msg & e' & He).
        do 3 eexists. split; [exact He|]. split; [|discriminate].
        repeat constructor.
    + destruct (email_fresh_Raise_body env w d u s Hs Hb) as (e' & He).
      do 3 eexists. split; [exact He|]. split; [|discriminate].
      repeat constructor.
  - destruct (email_fresh_Raise_subject env w d u Hs) as (e' & He).
    do 3 eexists. split; [exact He|]. split; [|discriminate].
    repeat constructor.
Qed.

(** C4: a call [build_email(user, send=True)] either fails while the
    message is being built, having done nothing but render, or it ends with
    exactly two events in this order: the creation of the Sent Record of
    this user and campaign, then the transport send of the message.  In the
    second case the record is in the table whatever the transport answers,
    and a transport that refuses the message makes the call raise
    [TransportError]. *)
Theorem build_email_records_then_sends env w d u r w' d' :
  build_email env u true (w, d) = (r, (w', d')) ->
  (exists e renders,
      r = Raise e
      /\ log w' = log w ++ renders
      /\ Forall rendering renders
      /\ drip_sentdrip w' = drip_sentdrip w)
  \/ (exists renders sd m,
      log w' = log w ++ renders ++ [EvCreateSentDrip sd; EvSend m]
      /\ Forall rendering renders
      /\ sd_user sd = user_id u
      /\ sd_drip sd = drip_pk (drip_model d)
      /\ drip_sentdrip w' = drip_sentdrip w ++ [sd]
      /\ r = (if transport env m then Return m else Raise TransportError)
      /\ (transport env m = false ->
          r = Raise TransportError /\ In sd (drip_sentdrip w'))).
Proof.
  rewrite build_email_eq. unfold resolve_from_email.
  assert (Hgen : forall d1, drip_model d1 = drip_model d ->
    match DripEmail.email env (w, DripEmail.new d1 u) with
    | (Raise e, (w1, _)) => (Raise e, (w1, d1))
    | (Return m, (w1, _)) =>
        let sd := sent_record env w1 d1 u m in
        (if transport env m then Return m else Raise TransportError,
         (add_events [EvCreateSentDrip sd; EvSend m]
                     (insert_sentdrip sd (tick w1)), d1))
    end = (r, (w', d')) ->
    (exists e renders,
      r = Raise e
      /\ log w' = log w ++ renders
      /\ Forall rendering renders
      /\ drip_sentdrip w' = drip_sentdrip w)
    \/ (exists renders sd m,
      log w' = log w ++ renders ++ [EvCreateSentDrip sd; EvSend m]
      /\ Forall rendering renders
      /\ sd_user sd = user_id u
      /\ sd_drip sd = drip_pk (drip_model d)
      /\ drip_sentdrip w' = drip_sentdrip w ++ [sd]
      /\ r = (if transport env m then Return m else Raise TransportError)
      /\ (transport env m = false ->
          r = Raise TransportError /\ In sd (drip_sentdrip w')))).
  { intros d1 Hm.
    destruct (email_fresh_world env w d1 u) as (r0 & renders & e' & He & Hr & Hnt).
    rewrite He. destruct r0 as [m|e]; simpl; intros H.
    - right. injection H as <- <- <-.
      exists renders, (sent_record env (add_events renders w) d1 u m), m.
      simpl. rewrite <- app_assoc, Hm.
      repeat (split; [solve [auto] |]).
      intros ->. split; [reflexivity|].
      apply in_or_app. right. now left.
    - left. injection H as <- <- <-. exists e, renders. simpl. auto. }
  destruct (truthy (from_email d)).
  - apply Hgen. reflexivity.
  - destruct (DEFAULT_FROM_EMAIL (settings env)) as [fallback|].
    + apply Hgen. reflexivity.
    + intros H. injection H as <- <- <-. left.
      eexists _, []. rewrite app_nil_r. auto.
Qed.

(** C4, at a concrete instance: the transport is down; alice's record is
    written and stays, and the error reaches the caller. *)
Lemma build_email_records_then_sends_witness :
  exists sd,
    fst (build_email offline_env alice true (demo_world, demo_drip))
    = Raise TransportError
    /\ sd_user sd = 1%Z
    /\ drip_sentdrip
         (fst (snd (build_email offline_env alice true (demo_world, demo_drip))))
       = [sd].
Proof.
  destruct (build_email_records_then_sends offline_env demo_world demo_drip
              alice
              (fst (build_email offline_env alice true (demo_world, demo_drip)))
              (fst (snd (build_email offline_env alice true
                           (demo_world, demo_drip))))
              (snd (snd (build_email offline_env alice true
                           (demo_world, demo_drip))))
              ltac:(vm_compute; reflexivity))
    as [(e & renders & _ & _ & _ & Hno)
       | (renders & sd & m & _ & _ & Hu & _ & Htab & _ & Hfail)].
  - vm_compute in Hno. discriminate.
  - exists sd. split; [|split; [exact Hu | exact Htab]].
    exact (proj1 (Hfail eq_refl)).
Defined.

(** C7, as the code has it: when the instance has no sender and the
    settings object has no attribute [DEFAULT_FROM_EMAIL], [build_email]
    raises [AttributeError] at once and leaves the whole state as it was:
    nothing is rendered, no message is built, no Sent Record is made. *)
Theorem build_email_raises_without_default_sender env w d u send :
  truthy (from_email d) = false ->
  DEFAULT_FROM_EMAIL (settings env) = None ->
  exists msg,
    build_email env u send (w, d) = (Raise (AttributeError msg), (w, d)).
Proof.
  intros Hf Hd. rewrite build_email_eq. unfold resolve_from_email.
  rewrite Hf, Hd. eauto.
Qed.

(** C7, at a concrete instance: settings without [DEFAULT_FROM_EMAIL]. *)
Lemma build_email_raises_without_default_sender_witness :
  exists msg,
    build_email bare_env alice true (demo_world, anonymous_drip)
    = (Raise (AttributeError msg), (demo_world, anonymous_drip)).
Proof.
  exact (build_email_raises_without_default_sender bare_env demo_world
           anonymous_drip alice true eq_refl eq_refl).
Defined.

(** C7 as worded fails when the default sender exists but is [None]: no
    address is resolvable, yet [build_email] renders both templates, writes
    the Sent Record and sends. *)
Lemma build_email_senderless_counterexample :
  ~ fails_before_render_without_sender senderless_env
      (demo_world, senderless_drip) alice true.
Proof.
  intros Hclaim.
  destruct (Hclaim eq_refl eq_refl) as (e & s' & Hb & _).
  vm_compute in Hb. discriminate.
Qed.

(** ** Construction and missing templates *)

Lemma truthy_header (display address : pystr) :
  truthy display = true ->
  truthy (Some (str display +:+ " <" +:+ str address +:+ ">")) = true.
Proof. destruct display as [[|c n]|]; simpl; auto; discriminate. Qed.

(** After [build_email] has settled the sender, the message constructor
    finds one. *)
Lemma resolve_from_email_sender_available env d d1 :
  resolve_from_email env d = Return d1 -> sender_available env d1 = true.
Proof.
  unfold resolve_from_email, sender_available, sender_header.
  destruct (truthy (from_email d)) eqn:Hf.
  - intros H. injection H as <-.
    destruct (DEFAULT_FROM_EMAIL (settings env)); [reflexivity|].
    destruct (truthy (from_email_name d)) eqn:Hn; [|exact Hf].
    now apply truthy_header.
  - destruct (DEFAULT_FROM_EMAIL (settings env)); [reflexivity | discriminate].
Qed.

Lemma resolve_from_email_templates env d d1 :
  resolve_from_email env d = Return d1 ->
  subject_template d1 = subject_template d
  /\ body_template d1 = body_template d.
Proof.
  unfold resolve_from_email.
  destruct (truthy (from_email d)); [intros H; now injection H as <-|].
  destruct (DEFAULT_FROM_EMAIL (settings env)); [|discriminate].
  intros H. now injection H as <-.
Qed.

(** A build whose templates both render and whose sender is settled. *)
Lemma build_email_rendered env u send w d d1 s b :
  resolve_from_email env d = Return d1 ->
  Template_render env (subject_template d) u = Some s ->
  Template_render env (body_template d) u = Some b ->
  let m := built_message env d1 u s b in
  exists w' more,
    build_email env u send (w, d)
    = ((if send then
          if transport env m then Return m else Raise TransportError
        else Return m),
       (w', d1))
    /\ log w' = log w ++ EvRender (subject_template d) u
                 :: EvRender (body_template d) u :: more
    /\ (send = true ->
        exists sd, drip_sentdrip w' = drip_sentdrip w ++ [sd]
                   /\ sd_user sd = user_id u
                   /\ sd_subject sd = s
                   /\ sd_body sd = strip_tags env b).
Proof.
  intros Hres Hs Hb m.
  destruct (resolve_from_email_templates env d d1 Hres) as [Hst Hbt].
  pose proof (resolve_from_email_sender_available env d d1 Hres) as Hav.
  rewrite <- Hst in Hs. rewrite <- Hbt in Hb.
  destruct (email_fresh_Return env w d1 u s b Hs Hb Hav)
    as (again & e' & He & _).
  rewrite build_email_eq, Hres, He. rewrite Hst, Hbt. fold m.
  destruct send.
  - do 2 eexists. split; [reflexivity|]. split.
    + simpl. rewrite <- app_assoc. reflexivity.
    + intros _. eexists. simpl. repeat split.
  - do 2 eexists. split; [reflexivity|]. split; [reflexivity | discriminate].
Qed.

(** C10, as the code has it: the constructor looks at the name only: it
    fails exactly when the name is empty or [None], and otherwise returns an
    instance that carries the templates as given, set or not.  A missing
    template is first looked at when the message is built, where it is
    handed to the rendering engine as it is: once the sender is settled,
    the render of the missing subject is the first thing [build_email]
    does, and the render of a missing body comes right after the subject.
    Whether the build fails there is the engine's answer.  If the engine
    raises, [build_email] raises with that render as the last thing that
    happened.  If the engine renders the missing template to a text, as
    Django does, [build_email] does not fail on it: the message is built
    from that text and, with [send], recorded under it and handed to the
    transport. *)
Theorem init_checks_name_only_missing_template_reaches_engine env :
  (forall cls drip kwargs,
      truthy (default (cls_name cls) (kw_name kwargs)) = true ->
      exists d,
        __init__ cls drip kwargs = Return d
        /\ subject_template d
           = default (cls_subject_template cls) (kw_subject_template kwargs)
        /\ body_template d
           = default (cls_body_template cls) (kw_body_template kwargs))
  /\ (forall cls drip kwargs,
      truthy (default (cls_name cls) (kw_name kwargs)) = false ->
      exists msg, __init__ cls drip kwargs = Raise (AttributeError msg))
  /\ (forall w d d1 u send,
      resolve_from_email env d = Return d1 ->
      subject_template d = None ->
      (Template_render env None u = None ->
       build_email env u send (w, d)
       = (Raise TemplateError, (add_events [EvRender None u] w, d1)))
      /\ (forall s b,
          Template_render env None u = Some s ->
          Template_render env (body_template d) u = Some b ->
          let m := built_message env d1 u s b in
          exists w' more,
            build_email env u send (w, d)
            = ((if send then
                  if transport env m then Return m else Raise TransportError
                else Return m),
               (w', d1))
            /\ log w' = log w ++ EvRender None u :: more
            /\ (send = true ->
                exists sd, drip_sentdrip w' = drip_sentdrip w ++ [sd]
                           /\ sd_user sd = user_id u
                           /\ sd_subject sd = s)))
  /\ (forall w d d1 u send s,
      resolve_from_email env d = Return d1 ->
      Template_render env (subject_template d) u = Some s ->
      body_template d = None ->
      (Template_render env None u = None ->
       build_email env u send (w, d)
       = (Raise TemplateError,
          (add_events [EvRender (subject_template d) u; EvRender None u] w,
           d1)))
      /\ (forall b,
          Template_render env None u = Some b ->
          let m := built_message env d1 u s b in
          exists w' more,
            build_email env u send (w, d)
            = ((if send then
                  if transport env m then Return m else Raise TransportError
                else Return m),
               (w', d1))
            /\ log w' = log w ++ EvRender (subject_template d) u
                         :: EvRender None u :: more
            /\ (send = true ->
                exists sd, drip_sentdrip w' = drip_sentdrip w ++ [sd]
                           /\ sd_user sd = user_id u
                           /\ sd_body sd = strip_tags env b))).
Proof.
  split; [|split; [|split]].
  - intros cls drip kwargs Hn. unfold __init__. rewrite Hn. simpl. eauto.
  - intros cls drip kwargs Hn. unfold __init__. rewrite Hn. simpl. eauto.
  - intros w d d1 u send Hres Hnone.
    destruct (resolve_from_email_templates env d d1 Hres) as [Hst Hbt].
    split.
    + intros Hreject. rewrite build_email_eq, Hres.
      destruct (email_fresh_Raise_subject env w d1 u) as (e' & He).
      { now rewrite Hst, Hnone. }
      rewrite He, Hst, Hnone. reflexivity.
    + intros s b Hs Hb m.
      destruct (build_email_rendered env u send w d d1 s b Hres)
        as (w' & more & Hbuild & Hlog & Hrec); [now rewrite Hnone | exact Hb |].
      exists w'. eexists. split; [exact Hbuild|]. split.
      * rewrite Hlog, Hnone. reflexivity.
      * intros Hsend. destruct (Hrec Hsend) as (sd & H1 & H2 & H3 & _).
        exists sd. auto.
  - intros w d d1 u send s Hres Hs Hnone.
    destruct (resolve_from_email_templates env d d1 Hres) as [Hst Hbt].
    split.
    + intros Hreject. rewrite build_email_eq, Hres.
      destruct (email_fresh_Raise_body env w d1 u s) as (e' & He).
      { now rewrite Hst. }
      { now rewrite Hbt, Hnone. }
      rewrite He, Hst, Hbt, Hnone. reflexivity.
    + intros b Hb m.
      destruct (build_email_rendered env u send w d d1 s b Hres)
        as (w' & more & Hbuild & Hlog & Hrec); [exact Hs | now rewrite Hnone |].
      exists w'. eexists. split; [exact Hbuild|]. split.
      * rewrite Hlog, Hnone. reflexivity.
      * intros Hsend. destruct (Hrec Hsend) as (sd & H1 & H2 & _ & H4).
        exists sd. auto.
Qed.

(** C10, at a concrete instance: an instance made from a name alone, with
    an engine that takes a missing template for the text [None]: the
    message is built with that text as its subject. *)
Lemma init_checks_name_only_missing_template_reaches_engine_witness :
  __init__ DripBase_class welcome only_name = Return anonymous_drip
  /\ exists w',
       build_email demo_env alice true (demo_world, anonymous_drip)
       = (Return (built_message demo_env
                    (set_from_email (Some "webmaster@localhost") anonymous_drip)
                    alice "None" "None"),
          (w', set_from_email (Some "webmaster@localhost") anonymous_drip)).
Proof.
  destruct (init_checks_name_only_missing_template_reaches_engine demo_env)
    as (Hinit & _ & Hbuild & _).
  split.
  - destruct (Hinit DripBase_class welcome only_name eq_refl) as (d & Hd & _).
    rewrite Hd. vm_compute in Hd. injection Hd as <-. reflexivity.
  - destruct (Hbuild demo_world anonymous_drip
                (set_from_email (Some "webmaster@localhost") anonymous_drip)
                alice true eq_refl eq_refl) as [_ Hrendered].
    destruct (Hrendered "None"%string "None"%string eq_refl eq_refl)
      as (w' & more & Hb & _).
    exists w'. exact Hb.
Defined.

(** C10 as worded fails with an engine that, like Django's, renders a missing
    template as the text [None]: the instance made from a name alone builds,
    records and sends its message without any failure. *)
Lemma missing_template_renders_counterexample :
  ~ missing_template_fails_at_build demo_env DripBase_class welcome only_name
      demo_world alice true.
Proof.
  intros (d & Hd & Hfail).
  vm_compute in Hd. injection Hd as <-.
  destruct (Hfail (or_introl eq_refl)) as (e & s' & Hb).
  vm_compute in Hb. discriminate.
Qed.

(** ** Immutability of the instance *)

Lemma attributes_kept_refl d : attributes_kept d d.
Proof. repeat split. Qed.

Lemma attributes_kept_trans d1 d2 d3 :
  attributes_kept d1 d2 -> attributes_kept d2 d3 -> attributes_kept d1 d3.
Proof.
  unfold attributes_kept, configuration_kept.
  intros ((?&?&?&?&?)&?) ((?&?&?&?&?)&?). repeat split; congruence.
Qed.

Lemma up_to_sender_refl env d : attributes_kept_up_to_sender env d d.
Proof. split; [repeat split | now left]. Qed.

Lemma up_to_sender_trans env d1 d2 d3 :
  attributes_kept_up_to_sender env d1 d2 ->
  attributes_kept_up_to_sender env d2 d3 ->
  attributes_kept_up_to_sender env d1 d3.
Proof.
  unfold attributes_kept_up_to_sender, configuration_kept.
  intros ((?&?&?&?&?)&H12) ((?&?&?&?&?)&H23).
  split; [repeat split; congruence|].
  destruct H12 as [E12 | (F1 & fb & Hfb & E12)].
  - destruct H23 as [E23 | (F2 & fb & Hfb & E23)].
    + left. congruence.
    + right. split; [congruence|]. eauto.
  - destruct H23 as [E23 | (F2 & fb' & Hfb' & E23)].
    + right. split; [exact F1|]. exists fb. split; [exact Hfb | congruence].
    + right. split; [exact F1|]. exists fb'. split; [exact Hfb' | exact E23].
Qed.

Lemma attributes_kept_weaken env d d' :
  attributes_kept d d' -> attributes_kept_up_to_sender env d d'.
Proof. intros [H1 H2]. split; [exact H1 | now left]. Qed.

Lemma preserves_eq_any (R : DripBase -> DripBase -> Prop) {A} (m : M St A) :
  (forall d, R d d) -> preserves eq m -> preserves R m.
Proof. intros Hr H s. rewrite <- (H s). apply Hr. Qed.

Lemma preserves_weaken (R R' : DripBase -> DripBase -> Prop) {A}
    (m : M St A) :
  (forall d d', R d d' -> R' d d') -> preserves R m -> preserves R' m.
Proof. intros Hi H s. apply Hi, H. Qed.

Section Immutability.
Context (env : Env).

Lemma get_queryset_keeps_attributes :
  preserves attributes_kept (get_queryset env).
Proof.
  unfold get_queryset, queryset, self_.
  apply preserves_bind; [exact attributes_kept_trans | now apply preserves_gets |].
  intros [qs|]; [now apply preserves_ret|].
  apply preserves_bind; [exact attributes_kept_trans | now apply preserves_gets |].
  intros base.
  apply preserves_bind; [exact attributes_kept_trans | |].
  { apply preserves_eq_any; [exact attributes_kept_refl|].
    apply apply_queryset_rules_keeps_self. }
  intros qs.
  apply preserves_bind; [exact attributes_kept_trans | |].
  { apply preserves_assign. intros d. repeat split. }
  intros _. now apply preserves_ret.
Qed.

Lemma prune_keeps_attributes : preserves attributes_kept (prune env).
Proof.
  unfold prune, self_.
  apply preserves_bind;
    [exact attributes_kept_trans | apply get_queryset_keeps_attributes |].
  intros target.
  apply preserves_bind;
    [exact attributes_kept_trans | now apply preserves_conditional_now |].
  intros date_lt.
  apply preserves_bind; [exact attributes_kept_trans | now apply preserves_gets |].
  intros drip.
  apply preserves_bind;
    [exact attributes_kept_trans | apply get_queryset_keeps_attributes |].
  intros qs. apply preserves_assign. intros d. repeat split.
Qed.

Lemma resolve_from_email_up_to_sender d d1 :
  resolve_from_email env d = Return d1 ->
  attributes_kept_up_to_sender env d d1.
Proof.
  unfold resolve_from_email.
  destruct (truthy (from_email d)) eqn:Hf.
  - intros H. injection H as <-. apply up_to_sender_refl.
  - destruct (DEFAULT_FROM_EMAIL (settings env)) as [fallback|] eqn:Hd;
      [|discriminate].
    intros H. injection H as <-. split; [repeat split|].
    right. split; [exact Hf|]. exists fallback.
    split; [exact Hd | reflexivity].
Qed.

Lemma build_email_up_to_sender u send :
  preserves (attributes_kept_up_to_sender env) (build_email env u send).
Proof.
  intros [w d]. rewrite build_email_eq. simpl.
  destruct (resolve_from_email env d) as [d1|e] eqn:Hres; simpl.
  - apply resolve_from_email_up_to_sender in Hres.
    destruct (DripEmail.email env (w, DripEmail.new d1 u))
      as [[m|e] [w1 e1]]; simpl; [|exact Hres].
    destruct send; exact Hres.
  - apply up_to_sender_refl.
Qed.

Lemma send_loop_up_to_sender users : forall count,
  preserves (attributes_kept_up_to_sender env) (send_loop env users count).
Proof.
  induction users as [|u users IH]; intros count; simpl.
  - apply preserves_ret, up_to_sender_refl.
  - apply preserves_bind;
      [apply up_to_sender_trans | apply build_email_up_to_sender |].
    intros _. apply IH.
Qed.

Lemma send_up_to_sender :
  preserves (attributes_kept_up_to_sender env) (send env).
Proof.
  unfold send, iterate.
  apply preserves_bind; [apply up_to_sender_trans | |].
  { eapply preserves_weaken;
      [apply attributes_kept_weaken | apply get_queryset_keeps_attributes]. }
  intros qs.
  apply preserves_bind; [apply up_to_sender_trans | |].
  { apply preserves_bind; [apply up_to_sender_trans | |].
    - apply preserves_emit_event, up_to_sender_refl.
    - intros _. apply preserves_gets, up_to_sender_refl. }
  intros users. apply send_loop_up_to_sender.
Qed.

Lemma run_up_to_sender :
  preserves (attributes_kept_up_to_sender env) (run env).
Proof.
  unfold run, self_.
  apply preserves_bind; [apply up_to_sender_trans | |].
  { apply preserves_gets, up_to_sender_refl. }
  intros is_enabled. destruct is_enabled; simpl.
  - apply preserves_bind; [apply up_to_sender_trans | |].
    { eapply preserves_weaken;
        [apply attributes_kept_weaken | apply prune_keeps_attributes]. }
    intros _.
    apply preserves_bind;
      [apply up_to_sender_trans | apply send_up_to_sender |].
    intros count. apply preserves_ret, up_to_sender_refl.
  - apply preserves_ret, up_to_sender_refl.
Qed.
End Immutability.

(** C9, as the code has it: whether they return or raise, [now], [walk],
    [get_queryset] and [prune] leave the name, the sender address, the
    sender display name, both templates and the offset of the instance as
    they were.  [build_email], and with it [send] and [run], leave the name,
    the display name, the templates and the offset as they were; the sender
    address they leave alone when it is set, and otherwise they may replace
    it, once and for all, by the configured default. *)
Theorem core_operations_keep_attributes_up_to_sender env :
  preserves attributes_kept (now env)
  /\ (forall into_past into_future,
        preserves attributes_kept (walk into_past into_future))
  /\ preserves attributes_kept (get_queryset env)
  /\ preserves attributes_kept (prune env)
  /\ (forall u send,
        preserves (attributes_kept_up_to_sender env) (build_email env u send))
  /\ preserves (attributes_kept_up_to_sender env) (send env)
  /\ preserves (attributes_kept_up_to_sender env) (run env)
  /\ (forall d d',
        attributes_kept_up_to_sender env d d' ->
        truthy (from_email d) = true -> attributes_kept d d').
Proof.
  refine (conj _ (conj _ (conj _ (conj _ (conj _ (conj _ (conj _ _))))))).
  - apply preserves_eq_any;
      [apply attributes_kept_refl | apply now_keeps_self].
  - intros p f. apply preserves_eq_any;
      [apply attributes_kept_refl | apply walk_keeps_self].
  - apply get_queryset_keeps_attributes.
  - apply prune_keeps_attributes.
  - apply build_email_up_to_sender.
  - apply send_up_to_sender.
  - apply run_up_to_sender.
  - intros d d' [Hc Hs] Ht. split; [exact Hc|].
    destruct Hs as [E | (F & _)]; [exact E | congruence].
Qed.

(** C9 as worded fails for [build_email]: an instance built without a
    sender address leaves the call with the default address of the
    settings. *)
Lemma build_email_sets_sender_counterexample :
  ~ preserves attributes_kept (build_email demo_env alice false).
Proof.
  intros Hclaim. destruct (Hclaim (demo_world, senderless_drip)) as [_ Hsender].
  vm_compute in Hsender. discriminate.
Qed.

(** C9, at a concrete instance: a whole [run] on an instance whose sender
    address is set. *)
Lemma core_operations_keep_attributes_up_to_sender_witness :
  attributes_kept demo_drip (snd (snd (run demo_env (demo_world, demo_drip)))).
Proof.
  destruct (core_operations_keep_attributes_up_to_sender demo_env)
    as (_ & _ & _ & _ & _ & _ & Hrun & Hset).
  apply Hset; [apply (Hrun (demo_world, demo_drip)) | reflexivity].
Defined.

(** ** [send] *)

Lemma rows_tables w1 w2 qs :
  auth_user w1 = auth_user w2 ->
  drip_sentdrip w1 = drip_sentdrip w2 ->
  rows w1 qs = rows w2 qs.
Proof.
  intros Hu Hs. induction qs as [|p qs IH|p qs IH|qs IH|t drip q1 IH1 q2 IH2];
    simpl; rewrite ?IH, ?IH1, ?IH2, ?Hs, ?Hu; reflexivity.
Qed.

Lemma created_records_app evs1 evs2 :
  created_records (evs1 ++ evs2) = created_records evs1 ++ created_records evs2.
Proof.
  induction evs1 as [|e evs1 IH]; simpl; [reflexivity|].
  destruct e; simpl; now rewrite IH.
Qed.

Lemma sent_messages_app evs1 evs2 :
  sent_messages (evs1 ++ evs2) = sent_messages evs1 ++ sent_messages evs2.
Proof.
  induction evs1 as [|e evs1 IH]; simpl; [reflexivity|].
  destruct e; simpl; now rewrite IH.
Qed.

Lemma rendering_no_record_no_send renders :
  Forall rendering renders ->
  created_records renders = [] /\ sent_messages renders = [].
Proof.
  induction 1 as [|e l He _ [IH1 IH2]]; [now split|].
  destruct e; simpl in *; try contradiction. now split.
Qed.

Lemma resolve_from_email_fixed env d d1 :
  resolve_from_email env d = Return d1 ->
  resolve_from_email env d1 = Return d1
  /\ subject_template d1 = subject_template d
  /\ body_template d1 = body_template d
  /\ drip_model d1 = drip_model d.
Proof.
  unfold resolve_from_email.
  destruct (truthy (from_email d)) eqn:Hf.
  - intros H. injection H as <-. now rewrite Hf.
  - destruct (DEFAULT_FROM_EMAIL (settings env)) as [fallback|];
      [|discriminate].
    intros H. injection H as <-. simpl.
    destruct (truthy (default fallback (DRIP_FROM_EMAIL (settings env))));
      repeat split.
Qed.

(** The loop of [send] when every message builds and the transport takes
    every message. *)
Lemma send_loop_all_delivered env d1 users :
  (forall m, transport env m = true) ->
  (forall u, In u users ->
     exists s b, Template_render env (subject_template d1) u = Some s
                 /\ Template_render env (body_template d1) u = Some b) ->
  forall w d count,
    resolve_from_email env d = Return d1 ->
    exists w' d' evs,
      send_loop env users count (w, d)
      = (Return (count + Z.of_nat (length users))%Z, (w', d'))
      /\ log w' = log w ++ evs
      /\ drip_sentdrip w' = drip_sentdrip w ++ created_records evs
      /\ map sd_user (created_records evs) = map user_id users
      /\ Forall (fun sd => sd_drip sd = drip_pk (drip_model d1))
                (created_records evs)
      /\ map msg_to (sent_messages evs)
         = map (fun u => [user_email u]) users.
Proof.
  intros Htransport. induction users as [|u users IH];
    intros Hrender w d count Hres.
  - exists w, d, []. simpl. unfold ret.
    rewrite Z.add_0_r, !app_nil_r. repeat split. constructor.
  - destruct (Hrender u (or_introl eq_refl)) as (s & b & Hs & Hb).
    destruct (email_fresh_Return env w d1 u s b Hs Hb
                (resolve_from_email_sender_available env d d1 Hres))
      as (again & e' & He & Hagain).
    set (renders := EvRender (subject_template d1) u
                    :: EvRender (body_template d1) u :: again) in *.
    assert (Hrenders : Forall rendering renders).
    { repeat (constructor; [exact I|]).
      now apply (Forall_rendering_again (EvRender (body_template d1) u)). }
    set (m := built_message env d1 u s b) in *.
    set (sd := sent_record env (add_events renders w) d1 u m).
    set (w2 := add_events [EvCreateSentDrip sd; EvSend m]
                 (insert_sentdrip sd (tick (add_events renders w)))).
    assert (Hstep : build_email env u true (w, d) = (Return m, (w2, d1))).
    { rewrite build_email_eq, Hres, He. simpl. now rewrite Htransport. }
    destruct (resolve_from_email_fixed env d d1 Hres) as (Hfix & _).
    destruct (IH (fun u' Hu' => Hrender u' (or_intror Hu')) w2 d1
                 (count + 1)%Z Hfix)
      as (w' & d' & evs & Hloop & Hlog & Htab & Hids & Hdrip & Hto).
    exists w', d', (renders ++ [EvCreateSentDrip sd; EvSend m] ++ evs).
    destruct (rendering_no_record_no_send renders Hrenders) as [Hnr Hns].
    rewrite !created_records_app, !sent_messages_app, Hnr, Hns. simpl.
    split; [|split; [|split; [|split; [|split]]]].
    + rewrite (bind_Return _ _ _ _ _ Hstep), Hloop.
      do 2 f_equal. lia.
    + rewrite Hlog. unfold w2. simpl. now rewrite <- !app_assoc.
    + rewrite Htab. unfold w2. simpl. now rewrite <- app_assoc.
    + now rewrite Hids.
    + constructor; [reflexivity | exact Hdrip].
    + now rewrite Hto.
Qed.

(** C2: on an instance whose candidate set is cached (as [prune] leaves
    it), whose sender resolves, whose templates render for every user of
    the set and whose transport accepts every message, [send] evaluates the
    set once, runs [build_email(user, send=True)] on its users in order,
    and returns their number.  It adds to the table exactly the
    Sent Records it created, one per user of the set and in the same order, all
    of this campaign, and hands one message per user to the transport, each
    addressed to that user.  On an empty set it returns 0. *)
Theorem send_one_record_per_user env w d d1 qs :
  _queryset d = Some qs ->
  resolve_from_email env d = Return d1 ->
  (forall u, In u (rows w qs) ->
     exists s b, Template_render env (subject_template d) u = Some s
                 /\ Template_render env (body_template d) u = Some b) ->
  (forall m, transport env m = true) ->
  let users := rows w qs in
  exists w' d' evs,
    send env (w, d) = (Return (Z.of_nat (length users)), (w', d'))
    /\ send env (w, d) = send_loop env users 0 (emit EvUsersQuery w, d)
    /\ log w' = log w ++ EvUsersQuery :: evs
    /\ drip_sentdrip w' = drip_sentdrip w ++ created_records evs
    /\ map sd_user (created_records evs) = map user_id users
    /\ Forall (fun sd => sd_drip sd = drip_pk (drip_model d))
              (created_records evs)
    /\ map msg_to (sent_messages evs) = map (fun u => [user_email u]) users
    /\ (users = [] -> send env (w, d) = (Return 0%Z, (emit EvUsersQuery w, d))).
Proof.
  intros Hq Hres Hrender Htransport users.
  destruct (resolve_from_email_fixed env d d1 Hres) as (_ & Hst & Hbt & Hdm).
  assert (Hsend : send env (w, d)
                  = send_loop env users 0 (emit EvUsersQuery w, d)).
  { unfold send. rewrite (bind_Return _ _ _ _ _ (get_queryset_cached env w d qs Hq)).
    unfold iterate. unfold_m. simpl.
    now rewrite (rows_tables (emit EvUsersQuery w) w qs). }
  destruct (send_loop_all_delivered env d1 users Htransport) with
    (w := emit EvUsersQuery w) (d := d) (count := 0%Z)
    as (w' & d' & evs & Hloop & Hlog & Htab & Hids & Hdrip & Hto).
  { intros u Hu. rewrite Hst, Hbt. now apply Hrender. }
  { exact Hres. }
  exists w', d', evs. rewrite Hsend.
  split; [exact Hloop|]. split; [reflexivity|].
  split; [rewrite Hlog; simpl; now rewrite <- app_assoc|].
  split; [exact Htab|]. split; [exact Hids|].
  split; [now rewrite <- Hdm|]. split; [exact Hto|].
  intros ->. reflexivity.
Qed.

(** C2, at a concrete instance: the two demo users, both delivered. *)
Lemma send_one_record_per_user_witness :
  exists w' d' evs,
    send demo_env
      (demo_world, set_queryset (QDistinct User_objects) demo_drip)
    = (Return (Z.of_nat (length (rows demo_world (QDistinct User_objects)))),
       (w', d'))
    /\ map sd_user (created_records evs)
       = map user_id (rows demo_world (QDistinct User_objects)).
Proof.
  destruct (send_one_record_per_user demo_env demo_world
              (set_queryset (QDistinct User_objects) demo_drip)
              (set_queryset (QDistinct User_objects) demo_drip)
              (QDistinct User_objects) eq_refl eq_refl)
    as (w' & d' & evs & Hsend & _ & _ & _ & Hids & _).
  - intros u _. exists "Hello"%string, "<p>Welcome</p>"%string.
    split; reflexivity.
  - intros m. reflexivity.
  - exists w', d', evs. split; [exact Hsend | exact Hids].
Defined.

(** * Further properties of the code *)

(** ** The builder *)

Ltac builder_unfold :=
  unfold DripEmail.email, DripEmail.plain, DripEmail.body, DripEmail.subject,
    DripEmail.context, DripEmail.render, DripEmail.self_, DripEmail.assign;
  unfold_m; simpl.

(** X1: a subject that rendered to a non-empty text is kept: reading
    [subject] again returns it and touches nothing.  A subject that rendered
    to the empty text is not kept: the memo test is the truth value of the
    text, so the next read renders the template again. *)
Theorem subject_memoised_unless_empty env w e s w1 e1 :
  DripEmail.subject env (w, e) = (Return s, (w1, e1)) ->
  (s <> EmptyString ->
   DripEmail.subject env (w1, e1) = (Return s, (w1, e1)))
  /\ (s = EmptyString ->
      exists c,
        DripEmail._context e1 = Some c
        /\ DripEmail.subject env (w1, e1)
           = (Return EmptyString,
              (emit (EvRender (subject_template (DripEmail.drip_base e)) c) w1,
               e1))).
Proof.
  destruct e as [base u ctx subj bd pl em].
  builder_unfold.
  destruct subj as [[|a subj]|]; simpl;
    destruct ctx as [c|]; simpl;
    try match goal with
        | |- context [Template_render ?en ?t ?c] =>
            destruct (Template_render en t c) as [[|a' r]|] eqn:Hr
        end;
    simpl; intros H; try discriminate; injection H as <- <- <-; simpl;
    rewrite ?Hr; simpl;
    (split; [intros Hne; try reflexivity; try (now contradiction Hne)
            | intros He; try discriminate; eauto]).
Qed.


Lemma email_fresh_exact env w d u s b :
  Template_render env (subject_template d) u = Some s ->
  Template_render env (body_template d) u = Some b ->
  sender_available env d = true ->
  exists e',
    DripEmail.email env (w, DripEmail.new d u) =
    (Return (built_message env d u s b),
     (add_events (EvRender (subject_template d) u
                  :: repeat (EvRender (body_template d) u) (body_renders b))
                 w, e'))
    /\ DripEmail._email e' = Some (built_message env d u s b).
Proof. apply email_fresh_trace. Qed.

(** X2: once a builder has returned its message, reading [email] again
    returns that same message without rendering or changing anything. *)
Theorem email_memoised env w d u m w1 e1 :
  DripEmail.email env (w, DripEmail.new d u) = (Return m, (w1, e1)) ->
  DripEmail.email env (w1, e1) = (Return m, (w1, e1)).
Proof.
  intros H.
  destruct (email_fresh_inv env w d u m (w1, e1) H)
    as (s & b & Hs & Hb & Hav & ->).
  destruct (email_fresh_exact env w d u s b Hs Hb Hav) as (e' & He & Hmemo).
  rewrite He in H. injection H as <- <-.
  unfold DripEmail.email at 1. unfold bind at 1.
  unfold DripEmail.self_ at 1. unfold gets at 1. simpl. rewrite Hmemo.
  reflexivity.
Qed.

(** X3: building the message on a new builder renders the subject template
    first and once; it then renders the body template once when the body is
    not empty and three times when it is empty, since an empty body is never
    memoised.  A template that fails to render stops the build there.  When
    both templates render but the message constructor finds no sender
    (nothing usable on the instance and no [DEFAULT_FROM_EMAIL] in the
    settings), the build raises [AttributeError] after the subject and the
    body were rendered once each. *)
Theorem email_renders_subject_once_body_once_or_thrice env w d u r w1 e1 :
  DripEmail.email env (w, DripEmail.new d u) = (r, (w1, e1)) ->
  match Template_render env (subject_template d) u,
        Template_render env (body_template d) u with
  | Some s, Some b =>
      if sender_available env d then
        r = Return (built_message env d u s b)
        /\ log w1 = log w ++ EvRender (subject_template d) u
                     :: repeat (EvRender (body_template d) u) (body_renders b)
      else
        (exists msg, r = Raise (AttributeError msg))
        /\ log w1 = log w ++ [EvRender (subject_template d) u;
                              EvRender (body_template d) u]
  | Some s, None =>
      r = Raise TemplateError
      /\ log w1 = log w ++ [EvRender (subject_template d) u;
                            EvRender (body_template d) u]
  | None, _ =>
      r = Raise TemplateError
      /\ log w1 = log w ++ [EvRender (subject_template d) u]
  end.
Proof.
  intros H.
  destruct (Template_render env (subject_template d) u) as [s|] eqn:Hs.
  - destruct (Template_render env (body_template d) u) as [b|] eqn:Hb.
    + destruct (sender_available env d) eqn:Hav.
      * destruct (email_fresh_exact env w d u s b Hs Hb Hav) as (e' & He & _).
        rewrite He in H. injection H as <- <- _. auto.
      * destruct (email_fresh_Raise_sender env w d u s b Hs Hb Hav)
          as (msg & e' & He).
        rewrite He in H. injection H as <- <- _. eauto.
    + destruct (email_fresh_Raise_body env w d u s Hs Hb) as (e' & He).
      rewrite He in H. injection H as <- <- _. auto.
  - destruct (email_fresh_Raise_subject env w d u Hs) as (e' & He).
    rewrite He in H. injection H as <- <- _. auto.
Qed.

(** X4: a built message carries the rendered subject and the address of the
    user as its only recipient.  Its sender is [name <address>] when the
    instance has a non-empty display name (an unset address then prints as
    [None]); without a display name it is the sender address of the
    instance when that is set, and otherwise the [DEFAULT_FROM_EMAIL] of the
    settings, which the message constructor falls back to. *)
Theorem email_headers env w d u m s' :
  DripEmail.email env (w, DripEmail.new d u) = (Return m, s') ->
  Template_render env (subject_template d) u = Some (msg_subject m)
  /\ msg_to m = [user_email u]
  /\ (truthy (from_email_name d) = true ->
      msg_from_email m
      = Some (str (from_email_name d) +:+ " <" +:+ str (from_email d) +:+ ">"))
  /\ (truthy (from_email_name d) = false ->
      truthy (from_email d) = true ->
      msg_from_email m = from_email d)
  /\ (truthy (from_email_name d) = false ->
      truthy (from_email d) = false ->
      DEFAULT_FROM_EMAIL (settings env) = Some (msg_from_email m)).
Proof.
  intros H.
  destruct (email_fresh_inv env w d u m s' H)
    as (s & b & Hs & Hb & Hav & ->).
  unfold built_message, stored_sender, sender_available, sender_header in *.
  simpl.
  split; [exact Hs|]. split; [reflexivity|]. split; [|split].
  - intros Hn. rewrite Hn. now rewrite truthy_header.
  - intros Hn Hf. now rewrite Hn, Hf.
  - intros Hn Hf. rewrite Hn in *. rewrite Hf in *.
    destruct (DEFAULT_FROM_EMAIL (settings env)); [reflexivity | discriminate].
Qed.

(** X5: without [send], [build_email] only renders: whether it returns or
    raises, it creates no Sent Record, hands nothing to the transport, does
    not read the clock and leaves the tables as they were. *)
Theorem build_email_without_send_only_renders env w d u r w' d' :
  build_email env u false (w, d) = (r, (w', d')) ->
  exists renders,
    log w' = log w ++ renders
    /\ Forall rendering renders
    /\ sent_messages renders = []
    /\ created_records renders = []
    /\ drip_sentdrip w' = drip_sentdrip w
    /\ auth_user w' = auth_user w
    /\ ticks w' = ticks w.
Proof.
  rewrite build_email_eq.
  destruct (resolve_from_email env d) as [d1|e]; simpl.
  - destruct (email_fresh_world env w d1 u) as (r0 & renders & e' & He & Hr & Hnt).
    rewrite He. destruct (rendering_no_record_no_send renders Hr) as [H1 H2].
    destruct r0; intros H; injection H as <- <- <-; exists renders; simpl; auto 10.
  - intros H. injection H as <- <- <-. exists []. rewrite app_nil_r.
    repeat split; auto.
Qed.

(** ** The tables and the log *)

Lemma quiet_refl s : quiet s s.
Proof.
  repeat split; try reflexivity. exists []. now rewrite app_nil_r.
Qed.

Lemma quiet_trans s1 s2 s3 : quiet s1 s2 -> quiet s2 s3 -> quiet s1 s3.
Proof.
  intros ([Hu1 Hr1] & Ht1 & Hk1 & Hm1 & evs1 & Hl1 & Hc1 & Hs1)
         ([Hu2 Hr2] & Ht2 & Hk2 & Hm2 & evs2 & Hl2 & Hc2 & Hs2).
  split; [split; congruence|]. split; [congruence|]. split; [lia|].
  split; [congruence|]. exists (evs1 ++ evs2).
  rewrite created_records_app, sent_messages_app, Hc1, Hc2, Hs1, Hs2.
  rewrite Hl2, Hl1, app_assoc. auto.
Qed.

Lemma advances_refl s : advances s s.
Proof.
  repeat split; try reflexivity. exists []. simpl. rewrite !app_nil_r.
  repeat split. constructor.
Qed.

Lemma advances_trans s1 s2 s3 :
  advances s1 s2 -> advances s2 s3 -> advances s1 s3.
Proof.
  intros ([Hu1 Hr1] & Hk1 & Hm1 & evs1 & Hl1 & Ht1 & Hc1 & Hs1)
         ([Hu2 Hr2] & Hk2 & Hm2 & evs2 & Hl2 & Ht2 & Hc2 & Hs2).
  split; [split; congruence|]. split; [lia|]. split; [congruence|].
  exists (evs1 ++ evs2).
  rewrite created_records_app, sent_messages_app, !length_app.
  rewrite Hl2, Hl1, Ht2, Ht1, !app_assoc.
  repeat split; [|lia].
  apply Forall_app. split; [exact Hc1|]. now rewrite <- Hm1.
Qed.

Lemma quiet_advances s s' : quiet s s' -> advances s s'.
Proof.
  intros (Ht & Hs & Hk & Hm & evs & Hl & Hc & Hse).
  split; [exact Ht|]. split; [exact Hk|]. split; [exact Hm|].
  exists evs. rewrite Hc, Hse, app_nil_r. repeat split; auto.
Qed.

Section Invariantly.
Context (R : St -> St -> Prop).
Context (R_refl : forall s, R s s).
Context (R_trans : forall s1 s2 s3, R s1 s2 -> R s2 s3 -> R s1 s3).

Lemma invariantly_ret {A} (a : A) : invariantly R (ret a).
Proof using R_refl. intros s. apply R_refl. Qed.

Lemma invariantly_raise {A} e : invariantly R (@raise St A e).
Proof using R_refl. intros s. apply R_refl. Qed.

Lemma invariantly_lift {A} (o : Outcome A) : invariantly R (lift o).
Proof using R_refl. intros s. apply R_refl. Qed.

Lemma invariantly_gets {A} (f : St -> A) : invariantly R (gets f).
Proof using R_refl. intros s. apply R_refl. Qed.

Lemma invariantly_bind {A B} (m : M St A) (k : A -> M St B) :
  invariantly R m -> (forall a, invariantly R (k a)) ->
  invariantly R (bind m k).
Proof using R_trans.
  intros Hm Hk s. unfold bind. specialize (Hm s).
  destruct (m s) as [[a|e] s1]; simpl in *.
  - eapply R_trans; [exact Hm | apply Hk].
  - exact Hm.
Qed.
End Invariantly.

Lemma invariantly_weaken (R R' : St -> St -> Prop) {A} (m : M St A) :
  (forall s s', R s s' -> R' s s') -> invariantly R m -> invariantly R' m.
Proof. intros Hi H s. apply Hi, H. Qed.

Lemma quiet_emit_event e :
  created_records [e] = [] -> sent_messages [e] = [] ->
  invariantly quiet (emit_event e).
Proof.
  intros Hc Hs [w d]. repeat split; simpl; auto. exists [e]. auto.
Qed.

Lemma quiet_conditional_now env : invariantly quiet (conditional_now env).
Proof.
  intros [w d]. repeat split; simpl; auto. exists []. now rewrite app_nil_r.
Qed.

Lemma quiet_assign f :
  (forall d, drip_model (f d) = drip_model d) -> invariantly quiet (assign f).
Proof.
  intros Hf [w d]. repeat split; simpl; auto. exists []. now rewrite app_nil_r.
Qed.

Ltac quiet_step :=
  first
    [ apply invariantly_bind; [exact quiet_trans | | intros ?]
    | apply invariantly_ret; exact quiet_refl
    | apply invariantly_raise; exact quiet_refl
    | apply invariantly_lift; exact quiet_refl
    | apply invariantly_gets; exact quiet_refl
    | apply quiet_conditional_now
    | apply quiet_emit_event; reflexivity
    | apply quiet_assign; reflexivity ].

Lemma now_quiet env : invariantly quiet (now env).
Proof. unfold now, self_. repeat quiet_step. Qed.

Lemma apply_rules_quiet env rules : forall qs,
  invariantly quiet (apply_rules env rules qs).
Proof.
  induction rules as [|r rules IH]; intros qs; simpl.
  - repeat quiet_step.
  - apply invariantly_bind; [exact quiet_trans | | intros qs'; apply IH].
    unfold apply. apply invariantly_bind; [exact quiet_trans | apply now_quiet |].
    intros t. destruct (rule_lookup r t); repeat quiet_step.
Qed.

Lemma get_queryset_quiet env : invariantly quiet (get_queryset env).
Proof.
  unfold get_queryset, queryset, apply_queryset_rules, self_.
  apply invariantly_bind; [exact quiet_trans | repeat quiet_step |].
  intros [qs|]; repeat quiet_step. apply apply_rules_quiet.
Qed.

Lemma prune_quiet env : invariantly quiet (prune env).
Proof.
  unfold prune, self_.
  repeat first [apply get_queryset_quiet | quiet_step].
Qed.

Lemma walk_quiet into_past into_future :
  invariantly quiet (walk into_past into_future).
Proof.
  unfold walk. generalize (range (- into_past) into_future) as shifts.
  generalize (@nil DripBase) as acc. intros acc shifts. revert acc.
  induction shifts as [|shift shifts IH]; intros acc; simpl.
  - repeat quiet_step.
  - repeat quiet_step. apply IH.
Qed.

Lemma resolve_from_email_model env d d1 :
  resolve_from_email env d = Return d1 -> drip_model d1 = drip_model d.
Proof. intros H. now destruct (resolve_from_email_fixed env d d1 H) as (_&_&_&?). Qed.

(** One committed build: what it leaves behind. *)
Lemma build_email_commit_cases env u w d r w' d' :
  build_email env u true (w, d) = (r, (w', d')) ->
  same_tables w w'
  /\ drip_model d' = drip_model d
  /\ exists renders,
       Forall rendering renders
       /\ ((exists e, r = Raise e /\ e <> TransportError
                      /\ log w' = log w ++ renders
                      /\ drip_sentdrip w' = drip_sentdrip w
                      /\ ticks w' = ticks w)
           \/ (exists sd m,
                 log w' = log w ++ renders ++ [EvCreateSentDrip sd; EvSend m]
                 /\ drip_sentdrip w' = drip_sentdrip w ++ [sd]
                 /\ sd_user sd = user_id u
                 /\ sd_drip sd = drip_pk (drip_model d)
                 /\ sd_date sd = wall_clock env (ticks w)
                 /\ ticks w' = S (ticks w)
                 /\ r = (if transport env m then Return m
                         else Raise TransportError))).
Proof.
  rewrite build_email_eq.
  destruct (resolve_from_email env d) as [d1|e] eqn:Hres; simpl.
  - apply resolve_from_email_model in Hres.
    destruct (email_fresh_world env w d1 u) as (r0 & renders & e' & He & Hr & Hnt).
    rewrite He. destruct r0 as [m|e]; intros H; injection H as <- <- <-.
    + split; [now split|]. split; [exact Hres|].
      exists renders. split; [exact Hr|]. right.
      exists (sent_record env (add_events renders w) d1 u m), m.
      simpl. rewrite <- app_assoc, Hres. repeat split; auto.
    + split; [now split|]. split; [exact Hres|].
      exists renders. split; [exact Hr|]. left. exists e.
      repeat split; auto.
      intros ->. now apply Hnt.
  - intros H. injection H as <- <- <-. split; [now split|]. split; [reflexivity|].
    exists []. split; [constructor|]. left. exists e.
    rewrite app_nil_r. repeat split; auto.
    unfold resolve_from_email in Hres.
    destruct (truthy (from_email d)); [discriminate|].
    destruct (DEFAULT_FROM_EMAIL (settings env)); [discriminate|].
    injection Hres as <-. discriminate.
Qed.

(** The loop of [send], whatever happens: it deals with a prefix of the
    users, in order. *)
Lemma send_loop_prefix env users : forall w d count r w' d',
  send_loop env users count (w, d) = (r, (w', d')) ->
  same_tables w w'
  /\ ticks w <= ticks w'
  /\ drip_model d' = drip_model d
  /\ exists k evs,
       k <= length users
       /\ log w' = log w ++ evs
       /\ drip_sentdrip w' = drip_sentdrip w ++ created_records evs
       /\ map sd_user (created_records evs) = map user_id (take k users)
       /\ Forall (fun sd => sd_drip sd = drip_pk (drip_model d))
                 (created_records evs)
       /\ length (sent_messages evs) = length (created_records evs)
       /\ match r with
          | Return n =>
              k = length users /\ n = (count + Z.of_nat (length users))%Z
          | Raise TransportError =>
              1 <= k /\ exists m, last (sent_messages evs) = Some m
                                  /\ transport env m = false
          | Raise _ => k < length users
          end.
Proof.
  induction users as [|u users IH]; intros w d count r w' d'; simpl.
  - unfold ret. intros H. injection H as <- <- <-.
    repeat split; auto. exists 0, []. simpl. rewrite !app_nil_r, Z.add_0_r.
    repeat split; auto.
  - unfold bind at 1.
    destruct (build_email env u true (w, d)) as [r1 [w1 d1]] eqn:Hb.
    destruct (build_email_commit_cases env u w d r1 w1 d1 Hb)
      as ([Hu Hr] & Hm & renders & Hren & Hcase).
    destruct (rendering_no_record_no_send renders Hren) as [Hnr Hns].
    destruct Hcase as [(e & -> & Hne & Hlog & Htab & Htick)
                      | (sd & m & Hlog & Htab & Hsu & Hsd & Hdate & Htick & ->)].
    + intros H. injection H as <- <- <-.
      split; [now split|]. split; [lia|]. split; [exact Hm|].
      exists 0, renders. simpl. rewrite Hnr, Hns, app_nil_r.
      repeat split; auto; try lia.
      destruct e; try lia. now contradiction Hne.
    + destruct (transport env m) eqn:Htr.
      * intros H. apply IH in H.
        destruct H as ([Hu2 Hr2] & Hk2 & Hm2 & k & evs & Hk & Hl2 & Ht2 & Hids
                       & Hdr & Hlen & Hres).
        split; [split; congruence|]. split; [lia|]. split; [congruence|].
        exists (S k), (renders ++ [EvCreateSentDrip sd; EvSend m] ++ evs).
        rewrite !created_records_app, !sent_messages_app, Hnr, Hns. simpl.
        split; [lia|]. split; [rewrite Hl2, Hlog; now rewrite <- !app_assoc|].
        split; [rewrite Ht2, Htab; now rewrite <- app_assoc|].
        split; [now rewrite Hsu, Hids|].
        split; [constructor; [exact Hsd | now rewrite <- Hm]|].
        split; [now rewrite Hlen|].
        destruct r as [n|e].
        -- destruct Hres as [-> ->]. split; [reflexivity | lia].
        -- destruct e; try lia.
           destruct Hres as (Hk1 & m' & Hlast & Hrefuse).
           split; [lia|]. exists m'. split; [|exact Hrefuse].
           destruct (sent_messages evs) as [|x l] eqn:Hsm; [discriminate|].
           exact Hlast.
      * intros H. injection H as <- <- <-.
        split; [now split|]. split; [lia|]. split; [exact Hm|].
        exists 1, (renders ++ [EvCreateSentDrip sd; EvSend m]).
        rewrite !created_records_app, !sent_messages_app, Hnr, Hns. simpl.
        repeat split; auto; try lia.
        -- now rewrite Hsu.
        -- exists m. split; [reflexivity | exact Htr].
Qed.

Lemma build_email_advances env u send :
  invariantly advances (build_email env u send).
Proof.
  intros [w d]. destruct send.
  - destruct (build_email env u true (w, d)) as [r [w' d']] eqn:Hb.
    destruct (build_email_commit_cases env u w d r w' d' Hb)
      as (Ht & Hm & renders & Hren & Hcase).
    destruct (rendering_no_record_no_send renders Hren) as [Hnr Hns].
    simpl.
    destruct Hcase as [(e & _ & _ & Hlog & Htab & Htick)
                      | (sd & m & Hlog & Htab & _ & Hsd & _ & Htick & _)].
    + split; [exact Ht|]. split; [simpl; lia|]. split; [exact Hm|].
      exists renders. simpl. rewrite Hnr, Hns, app_nil_r. repeat split; auto.
    + split; [exact Ht|]. split; [simpl; lia|]. split; [exact Hm|].
      exists (renders ++ [EvCreateSentDrip sd; EvSend m]).
      rewrite created_records_app, sent_messages_app, Hnr, Hns. simpl.
      repeat split; auto.
  - rewrite build_email_eq.
    destruct (resolve_from_email env d) as [d1|e] eqn:Hres; simpl;
      [|apply advances_refl].
    apply resolve_from_email_model in Hres.
    destruct (email_fresh_world env w d1 u) as (r0 & renders & e' & He & Hr & Hnt).
    rewrite He. destruct (rendering_no_record_no_send renders Hr) as [Hnr Hns].
    assert (Hadv : advances (w, d) (add_events renders w, d1)).
    { split; [now split|]. split; [simpl; lia|]. split; [exact Hres|].
      exists renders. simpl. rewrite Hnr, Hns, app_nil_r. repeat split; auto. }
    destruct r0; exact Hadv.
Qed.

Lemma send_loop_advances env users : forall count,
  invariantly advances (send_loop env users count).
Proof.
  induction users as [|u users IH]; intros count; simpl.
  - apply invariantly_ret, advances_refl.
  - apply invariantly_bind;
      [exact advances_trans | apply build_email_advances |].
    intros _. apply IH.
Qed.

Lemma iterate_quiet qs : invariantly quiet (iterate qs).
Proof. unfold iterate. repeat quiet_step. Qed.

Lemma send_advances env : invariantly advances (send env).
Proof.
  unfold send.
  apply invariantly_bind; [exact advances_trans | |].
  { eapply invariantly_weaken; [exact quiet_advances | apply get_queryset_quiet]. }
  intros qs. apply invariantly_bind; [exact advances_trans | |].
  { eapply invariantly_weaken; [exact quiet_advances | apply iterate_quiet]. }
  intros users. apply send_loop_advances.
Qed.

Lemma run_advances env : invariantly advances (run env).
Proof.
  unfold run, self_.
  apply invariantly_bind; [exact advances_trans | |].
  { apply invariantly_gets, advances_refl. }
  intros is_enabled. destruct is_enabled; simpl.
  - apply invariantly_bind; [exact advances_trans | |].
    { eapply invariantly_weaken; [exact quiet_advances | apply prune_quiet]. }
    intros _. apply invariantly_bind;
      [exact advances_trans | apply send_advances |].
    intros count. apply invariantly_ret, advances_refl.
  - apply invariantly_ret, advances_refl.
Qed.

(** X6: [now], [walk], [get_queryset] and [prune] never create a Sent
    Record and never send: whether they return or raise, the three tables are
    as they were, the campaign of the instance is the same, the clock has
    not gone back and the log has only grown by events that are neither a
    creation nor a send. *)
Theorem reads_never_record_or_send env :
  invariantly quiet (now env)
  /\ (forall into_past into_future,
        invariantly quiet (walk into_past into_future))
  /\ invariantly quiet (get_queryset env)
  /\ invariantly quiet (prune env).
Proof.
  split; [apply now_quiet|]. split; [apply walk_quiet|].
  split; [apply get_queryset_quiet | apply prune_quiet].
Qed.

(** X7: [build_email], [send] and [run] only append to the Sent Record
    table, whether they return or raise: the user and rule tables are as
    they were, the old records are a prefix of the new table, every record
    added belongs to the campaign of the instance, and there are as many
    send attempts as records created. *)
Theorem writes_append_records_of_own_campaign env :
  (forall u send, invariantly advances (build_email env u send))
  /\ invariantly advances (send env)
  /\ invariantly advances (run env).
Proof.
  split; [apply build_email_advances|].
  split; [apply send_advances | apply run_advances].
Qed.

(** X8: when the transport refuses a message, [send] stops there:
    the users before the refused one, and the refused one, have their Sent
    Record and their send attempt, in the order of the set; the users after
    it have neither. *)
Theorem send_stops_at_refused_message env w d qs w' d' :
  _queryset d = Some qs ->
  send env (w, d) = (Raise TransportError, (w', d')) ->
  exists k evs m,
    1 <= k <= length (rows w qs)
    /\ log w' = log w ++ EvUsersQuery :: evs
    /\ drip_sentdrip w' = drip_sentdrip w ++ created_records evs
    /\ map sd_user (created_records evs) = map user_id (take k (rows w qs))
    /\ length (sent_messages evs) = k
    /\ last (sent_messages evs) = Some m
    /\ transport env m = false.
Proof.
  intros Hq H. unfold send in H.
  rewrite (bind_Return _ _ _ _ _ (get_queryset_cached env w d qs Hq)) in H.
  unfold iterate in H. unfold_m. simpl in H.
  rewrite (rows_tables (emit EvUsersQuery w) w qs) in H by reflexivity.
  apply send_loop_prefix in H.
  destruct H as (_ & _ & _ & k & evs & Hk & Hlog & Htab & Hids & _ & Hlen
                 & Hk1 & m & Hlast & Hrefuse).
  exists k, evs, m. simpl in Hlog, Htab.
  split; [lia|]. split; [rewrite Hlog; now rewrite <- app_assoc|].
  split; [exact Htab|]. split; [exact Hids|]. split; [|now split].
  rewrite Hlen. rewrite <- (length_map sd_user), Hids, length_map, length_take.
  lia.
Qed.

Lemma List_filter_sublist {A} (f : A -> bool) (l : list A) :
  List.filter f l `sublist_of` l.
Proof.
  induction l as [|x l IH]; simpl; [constructor|].
  destruct (f x); now constructor.
Qed.

Lemma remove_dups_sublist_of `{EqDecision A} (l : list A) :
  remove_dups l `sublist_of` l.
Proof.
  induction l as [|x l IH]; simpl; [constructor|].
  destruct (decide_rel elem_of x l); now constructor.
Qed.

(** Whatever the queryset, its rows are rows of the user table, in the
    order of the table. *)
Lemma rows_sublist w qs : rows w qs `sublist_of` auth_user w.
Proof.
  induction qs as [|p qs IH|p qs IH|qs IH|t drip q1 IH1 q2 IH2]; simpl.
  - reflexivity.
  - etransitivity; [apply List_filter_sublist | exact IH].
  - etransitivity; [apply List_filter_sublist | exact IH].
  - etransitivity; [apply remove_dups_sublist_of | exact IH].
  - etransitivity; [apply List_filter_sublist | exact IH2].
Qed.

Lemma get_queryset_quiet_at env w d r w1 d1 :
  get_queryset env (w, d) = (r, (w1, d1)) -> quiet (w, d) (w1, d1).
Proof. intros H. pose proof (get_queryset_quiet env (w, d)) as Hq. now rewrite H in Hq. Qed.

Lemma run_enabled_eq env w d target w1 d1 :
  enabled (drip_model d) = true ->
  get_queryset env (w, d) = (Return target, (w1, d1)) ->
  let pruned := QExcludeSent (wall_clock env (ticks w1))
                  (drip_pk (drip_model d1)) target target in
  run env (w, d) =
  match send_loop env (rows w1 pruned) 0%Z
          (emit EvUsersQuery (tick w1), set_queryset pruned d1) with
  | (Return count, s) => (Return (Some count), s)
  | (Raise e, s) => (Raise e, s)
  end.
Proof.
  intros He Hg pruned. unfold run, send, iterate. unfold_m. simpl.
  rewrite He. simpl.
  rewrite (prune_after_get_queryset env _ _ _ Hg). simpl. fold pruned.
  rewrite !(rows_tables (emit EvUsersQuery (tick w1)) w1 target)
    by reflexivity.
  destruct (send_loop env _ _ _) as [[c|e] s]; reflexivity.
Qed.

Lemma run_get_queryset_raises env w d e w1 d1 :
  enabled (drip_model d) = true ->
  get_queryset env (w, d) = (Raise e, (w1, d1)) ->
  run env (w, d) = (Raise e, (w1, d1)).
Proof.
  intros He Hg. unfold run, prune. unfold_m. simpl. rewrite He. simpl.
  now rewrite Hg.
Qed.

Lemma run_disabled_eq env w d :
  enabled (drip_model d) = false -> run env (w, d) = (Return None, (w, d)).
Proof. intros He. unfold run. unfold_m. simpl. now rewrite He. Qed.

(** A run either creates nothing, or its creations are for a prefix of the
    pruned rows. *)
Lemma run_cases env w d r w' d' :
  run env (w, d) = (r, (w', d')) ->
  exists evs,
    log w' = log w ++ evs
    /\ drip_sentdrip w' = drip_sentdrip w ++ created_records evs
    /\ (created_records evs = []
        \/ exists target w1 d1 k,
             get_queryset env (w, d) = (Return target, (w1, d1))
             /\ map sd_user (created_records evs)
                = map user_id
                    (take k (rows w (QExcludeSent
                                       (wall_clock env (ticks w1))
                                       (drip_pk (drip_model d))
                                       target target)))).
Proof.
  destruct (enabled (drip_model d)) eqn:He.
  2:{ rewrite (run_disabled_eq env w d He). intros H. injection H as <- <- <-.
      exists []. simpl. rewrite !app_nil_r. auto. }
  destruct (get_queryset env (w, d)) as [[target|e] [w1 d1]] eqn:Hg.
  - pose proof (get_queryset_quiet_at env w d _ w1 d1 Hg)
      as ([Hu Hr] & Hsd & Hk & Hm & evs0 & Hl0 & Hc0 & Hs0).
    simpl in *.
    rewrite (run_enabled_eq env w d target w1 d1 He Hg). cbv zeta.
    set (pruned := QExcludeSent _ _ target target).
    destruct (send_loop env _ 0%Z _) as [r2 [w2 d2]] eqn:Hloop.
    apply send_loop_prefix in Hloop.
    destruct Hloop as (_ & _ & _ & k & evs & _ & Hlog & Htab & Hids & _).
    simpl in Hlog, Htab.
    intros H.
    assert (Hw : w' = w2) by (destruct r2; now injection H as <- <- <-).
    subst w'. exists (evs0 ++ EvUsersQuery :: evs).
    rewrite created_records_app. simpl. rewrite Hc0. simpl.
    split; [rewrite Hlog, Hl0; now rewrite <- !app_assoc|].
    split; [now rewrite Htab, Hsd|].
    right. exists target, w1, d1, k. split; [reflexivity|].
    rewrite Hids. unfold pruned. rewrite Hm.
    now rewrite (rows_tables w1 w) by assumption.
  - rewrite (run_get_queryset_raises env w d e w1 d1 He Hg).
    pose proof (get_queryset_quiet_at env w d _ w1 d1 Hg)
      as (_ & Hsd & _ & _ & evs0 & Hl0 & Hc0 & _).
    simpl in *. intros H. injection H as <- <- <-.
    exists evs0. rewrite Hc0, app_nil_r. auto.
Qed.

(** X9: when every Sent Record in the table is older than any reading the
    clock will give from now on, a [run] never creates a record for a user
    who already has a record of this campaign, whether the run completes
    or fails on the way. *)
Theorem run_skips_users_already_sent env w d r w' d' :
  run env (w, d) = (r, (w', d')) ->
  (forall old n, In old (drip_sentdrip w) -> ticks w <= n ->
                 (sd_date old < wall_clock env n)%Z) ->
  exists evs,
    log w' = log w ++ evs
    /\ drip_sentdrip w' = drip_sentdrip w ++ created_records evs
    /\ forall sd old,
         In sd (created_records evs) ->
         In old (drip_sentdrip w) ->
         sd_drip old = drip_pk (drip_model d) ->
         sd_user old <> sd_user sd.
Proof.
  intros H Hdates.
  destruct (run_cases env w d r w' d' H) as (evs & Hlog & Htab & Hcase).
  exists evs. split; [exact Hlog|]. split; [exact Htab|].
  intros sd old Hsd Hold Hdrip Huser.
  destruct Hcase as [Hnone | (target & w1 & d1 & k & Hg & Hids)].
  { rewrite Hnone in Hsd. contradiction. }
  pose proof (get_queryset_quiet_at env w d _ w1 d1 Hg)
    as (_ & _ & Hk & _). simpl in Hk.
  assert (Hin : In (sd_user sd) (map sd_user (created_records evs)))
    by now apply in_map.
  rewrite Hids in Hin. apply in_map_iff in Hin.
  destruct Hin as (u & Hu & Hin).
  assert (Hrow : In u (rows w (QExcludeSent (wall_clock env (ticks w1))
                                 (drip_pk (drip_model d)) target target))).
  { apply list_elem_of_In. eapply elem_of_sublist;
      [apply list_elem_of_In; exact Hin | apply sublist_take]. }
  apply rows_QExcludeSent in Hrow. destruct Hrow as [_ Hno].
  apply Hno. exists old.
  split; [exact Hold|]. split; [congruence|]. split; [exact Hdrip|].
  now apply Hdates.
Qed.

(** X10: when the user ids of the user table are pairwise different, the
    records one [run] creates are for pairwise different users, whatever
    queryset the instance has cached and whether the run completes or not. *)
Theorem run_one_record_per_user env w d r w' d' :
  run env (w, d) = (r, (w', d')) ->
  NoDup (map user_id (auth_user w)) ->
  exists evs,
    log w' = log w ++ evs
    /\ drip_sentdrip w' = drip_sentdrip w ++ created_records evs
    /\ NoDup (map sd_user (created_records evs)).
Proof.
  intros H Hpk.
  destruct (run_cases env w d r w' d' H) as (evs & Hlog & Htab & Hcase).
  exists evs. split; [exact Hlog|]. split; [exact Htab|].
  destruct Hcase as [-> | (target & w1 & d1 & k & _ & ->)]; [constructor|].
  eapply sublist_NoDup; [exact Hpk|].
  apply fmap_sublist. etransitivity; [apply sublist_take | apply rows_sublist].
Qed.

(** ** More on [prune] and [get_queryset] *)


Lemma List_filter_all {A} (f : A -> bool) (l : list A) :
  (forall x, In x l -> f x = true) -> List.filter f l = l.
Proof.
  induction l as [|x l IH]; simpl; intros H; [reflexivity|].
  rewrite (H x (or_introl eq_refl)). f_equal. apply IH. auto.
Qed.

Lemma List_filter_none {A} (f : A -> bool) (l : list A) :
  (forall x, In x l -> f x = false) -> List.filter f l = [].
Proof.
  induction l as [|x l IH]; simpl; intros H; [reflexivity|].
  rewrite (H x (or_introl eq_refl)). apply IH. auto.
Qed.

(** X11: on tables whose records of this campaign are all dated at or
    after the reading [prune] takes, the pruned set has exactly the rows of
    the set before: records of other campaigns and records not older than
    the reading remove nobody. *)
Theorem prune_ignores_other_campaigns_and_later_records env s target s1 w :
  get_queryset env s = (Return target, s1) ->
  (forall sd, In sd (drip_sentdrip w) ->
              sd_drip sd = drip_pk (drip_model (snd s)) ->
              (wall_clock env (ticks (fst s1)) <= sd_date sd)%Z) ->
  exists pruned s',
    prune env s = (Return tt, s')
    /\ _queryset (snd s') = Some pruned
    /\ rows w pruned = rows w target.
Proof.
  intros Hg Hrec.
  destruct (get_queryset_Return_state env s target s1 Hg) as [_ Hm].
  do 2 eexists. split; [apply (prune_after_get_queryset env s target s1 Hg)|].
  split; [reflexivity|]. simpl.
  rewrite (List_filter_none (sent_matches _ _ _)).
  - simpl. apply List_filter_all. reflexivity.
  - intros sd Hsd. unfold sent_matches.
    destruct (Z.eqb_spec (sd_drip sd) (drip_pk (drip_model (snd s1))))
      as [Heq|Hne].
    + rewrite Hm in Heq. specialize (Hrec sd Hsd Heq).
      apply Z.ltb_ge in Hrec. now rewrite Hrec.
    + now rewrite andb_false_r.
Qed.

Lemma sent_before_max w drip t1 t2 u :
  sent_before w drip (Z.max t1 t2) u
  <-> sent_before w drip t1 u \/ sent_before w drip t2 u.
Proof.
  split.
  - intros (sd & H1 & H2 & H3 & H4).
    destruct (Z.max_spec t1 t2) as [[_ E]|[_ E]]; rewrite E in H4;
      [right | left]; exists sd; auto.
  - intros [(sd & H1 & H2 & H3 & H4)|(sd & H1 & H2 & H3 & H4)];
      exists sd; repeat split; auto; lia.
Qed.

(** X12: pruning twice in a row is pruning at the later of the two clock
    readings: the set then holds the candidates without a Sent Record of
    this campaign older than that reading. *)
Theorem prune_twice_cuts_at_later_reading env s target s1 :
  get_queryset env s = (Return target, s1) ->
  let t1 := wall_clock env (ticks (fst s1)) in
  let t2 := wall_clock env (S (ticks (fst s1))) in
  let drip := drip_pk (drip_model (snd s)) in
  exists pruned s',
    (prune env ;;; prune env) s = (Return tt, s')
    /\ _queryset (snd s') = Some pruned
    /\ forall w u,
         In u (rows w pruned) <->
         In u (rows w target) /\ ~ sent_before w drip (Z.max t1 t2) u.
Proof.
  intros Hg t1 t2 drip.
  destruct (get_queryset_Return_state env s target s1 Hg) as [_ Hm].
  pose proof (prune_after_get_queryset env s target s1 Hg) as Hp1.
  set (p1 := QExcludeSent (wall_clock env (ticks (fst s1)))
               (drip_pk (drip_model (snd s1))) target target) in *.
  pose proof (prune_after_get_queryset env
                (tick (fst s1), set_queryset p1 (snd s1)) p1
                (tick (fst s1), set_queryset p1 (snd s1))
                (get_queryset_cached env (tick (fst s1))
                   (set_queryset p1 (snd s1)) p1 eq_refl)) as Hp2.
  do 2 eexists. split; [|split].
  - rewrite (bind_Return _ _ _ _ _ Hp1). exact Hp2.
  - reflexivity.
  - intros w u. simpl snd. simpl fst.
    rewrite rows_QExcludeSent. unfold p1. rewrite rows_QExcludeSent.
    rewrite sent_before_max. simpl. rewrite Hm. fold drip. fold t1 t2.
    tauto.
Qed.

(** X13: when [get_queryset] raises, nothing was cached before and nothing
    is cached after: the instance is left exactly as it was, so the next
    call applies the rules again; no Sent Record has changed. *)
Theorem get_queryset_failure_caches_nothing env w d e w1 d1 :
  get_queryset env (w, d) = (Raise e, (w1, d1)) ->
  d1 = d /\ _queryset d1 = None
  /\ drip_sentdrip w1 = drip_sentdrip w.
Proof.
  intros H. pose proof (get_queryset_quiet_at env w d _ w1 d1 H)
    as (_ & Hsd & _).
  destruct (_queryset d) as [q0|] eqn:Hq.
  - rewrite (get_queryset_cached env w d q0 Hq) in H. discriminate.
  - rewrite (get_queryset_first env w d Hq) in H.
    destruct (apply_queryset_rules_state env (cls_queryset (__class__ d)) w d)
      as (r & w2 & Hr).
    rewrite Hr in H. destruct r; [discriminate|].
    injection H as _ <- <-. auto.
Qed.



(** ** Shifts, siblings and the save signal *)

Lemma timedelta_spec (kw : gmap string Z) :
  (forall e, timedelta kw = Raise e -> exists msg, e = TypeError msg)
  /\ ((exists k v, kw !! k = Some v /\ timedelta_unit k = None) ->
      exists e, timedelta kw = Raise e)
  /\ ((forall k v, kw !! k = Some v -> timedelta_unit k <> None) ->
      exists delta, timedelta kw = Return delta).
Proof.
  unfold timedelta.
  apply (map_fold_weak_ind
           (fun r (m : gmap string Z) =>
              (forall e, r = Raise e -> exists msg, e = TypeError msg)
              /\ ((exists k v, m !! k = Some v /\ timedelta_unit k = None) ->
                  exists e, r = Raise e)
              /\ ((forall k v, m !! k = Some v -> timedelta_unit k <> None) ->
                  exists delta, r = Return delta))).
  - split; [discriminate|]. split.
    + intros (k & v & H & _). rewrite lookup_empty in H. discriminate.
    + eauto.
  - intros k v m r Hfresh (IH1 & IH2 & IH3). split; [|split].
    + intros e He. destruct r as [a|e0].
      * destruct (timedelta_unit k); [discriminate|].
        injection He as <-. eauto.
      * injection He as <-. now apply IH1.
    + intros (k' & v' & Hk & Hunit).
      destruct (decide (k = k')) as [->|Hne].
      * rewrite Hunit. destruct r; eauto.
      * rewrite lookup_insert_ne in Hk by exact Hne.
        destruct IH2 as (e & ->); eauto.
    + intros Hknown.
      destruct IH3 as (delta & ->).
      { intros k' v' Hk'. apply (Hknown k' v').
        rewrite lookup_insert_ne; [exact Hk'|]. intros ->. congruence. }
      specialize (Hknown k v (lookup_insert_eq m k v)).
      destruct (timedelta_unit k); [eauto | congruence].
Qed.

(** X15: on an instance constructed without [now_shift_kwargs], [now()]
    is the reading of the real clock, exactly. *)
Theorem now_unshifted_without_shift_kwargs env cls drip kwargs d w :
  __init__ cls drip kwargs = Return d ->
  kw_now_shift_kwargs kwargs = None ->
  now env (w, d) = (Return (wall_clock env (ticks w)), (tick w, d)).
Proof.
  unfold __init__.
  destruct (truthy (default (cls_name cls) (kw_name kwargs))); simpl;
    [|discriminate].
  intros H Hk. injection H as <-. rewrite Hk. simpl.
  apply now_unshifted. reflexivity.
Qed.

(** X16: the constructor takes any [now_shift_kwargs]; a keyword that
    [timedelta] does not know makes every later [now()] raise [TypeError],
    after the clock was read. *)
Theorem now_raises_on_unknown_shift_keyword env cls drip kwargs shift d w k v :
  kw_now_shift_kwargs kwargs = Some shift ->
  shift !! k = Some v ->
  timedelta_unit k = None ->
  __init__ cls drip kwargs = Return d ->
  exists msg, now env (w, d) = (Raise (TypeError msg), (tick w, d)).
Proof.
  intros Hk Hlook Hunit. unfold __init__.
  destruct (truthy (default (cls_name cls) (kw_name kwargs))); simpl;
    [|discriminate].
  intros H. injection H as <-. rewrite Hk. simpl.
  destruct (timedelta_spec shift) as (Htype & Hraise & _).
  destruct Hraise as (e & He); [eauto|].
  destruct (Htype e He) as (msg & ->).
  exists msg. unfold now. unfold_m. simpl. now rewrite He.
Qed.

Lemma walk_loop_class_attributes shifts : forall acc w d l s',
  walk_loop shifts acc (w, d) = (Return l, s') ->
  exists new, l = acc ++ new
    /\ length new = length shifts
    /\ Forall (fun sib =>
                 from_email sib = cls_from_email (__class__ d)
                 /\ from_email_name sib = cls_from_email_name (__class__ d)
                 /\ subject_template sib = cls_subject_template (__class__ d)
                 /\ body_template sib = cls_body_template (__class__ d))
              new.
Proof.
  induction shifts as [|shift shifts IH]; intros acc w d l s'; simpl.
  - unfold ret. intros H. injection H as <- _. exists [].
    rewrite app_nil_r. repeat split. constructor.
  - unfold bind at 1. unfold gets at 1. simpl.
    unfold bind at 1. unfold lift at 1. unfold __init__ at 1. simpl.
    destruct (truthy (name d)); simpl; [|discriminate].
    intros H. apply IH in H. destruct H as (new & -> & Hlen & Hall).
    eexists (_ :: new). rewrite <- app_assoc. simpl.
    split; [reflexivity|]. split; [now rewrite Hlen|].
    constructor; [simpl; auto | exact Hall].
Qed.

(** X17: the instances [walk] makes take their sender address, display
    name and templates from the class, not from the instance walked: for an
    instance of [DripBase] itself they have no template and no sender. *)
Theorem walk_siblings_take_class_attributes w d into_past into_future l s' :
  walk into_past into_future (w, d) = (Return l, s') ->
  Forall (fun sib =>
            from_email sib = cls_from_email (__class__ d)
            /\ from_email_name sib = cls_from_email_name (__class__ d)
            /\ subject_template sib = cls_subject_template (__class__ d)
            /\ body_template sib = cls_body_template (__class__ d))
         l
  /\ (__class__ d = DripBase_class ->
      Forall (fun sib => subject_template sib = None
                         /\ body_template sib = None
                         /\ from_email sib = None) l).
Proof.
  intros H. apply walk_loop_class_attributes in H.
  destruct H as (new & -> & _ & Hall). simpl. split; [exact Hall|].
  intros Hcls. rewrite Hcls in Hall. simpl in Hall.
  eapply Forall_impl; [exact Hall|]. simpl. intros sib (?&?&?&?). auto.
Qed.

(** X18: when [into_past + into_future] is not positive, in particular
    for a window given with negative bounds, [walk] returns the empty list
    and constructs nothing. *)
Theorem walk_empty_window w d into_past into_future :
  (into_past + into_future <= 0)%Z ->
  walk into_past into_future (w, d) = (Return [], (w, d)).
Proof.
  intros H. unfold walk, range.
  replace (Z.to_nat (into_future - - into_past)) with 0 by lia.
  reflexivity.
Qed.

Lemma run_row_advances env drip_property row d w r w' :
  drip_property row = Return d ->
  run_row env drip_property row w = (r, w') ->
  exists d', advances (w, d) (w', d').
Proof.
  intros Hd. unfold run_row. rewrite Hd. intros H.
  pose proof (run_advances env (w, d)) as Ha.
  destruct (run env (w, d)) as [r0 [w0 d0]]. simpl in *.
  injection H as _ <-. eauto.
Qed.

Lemma run_rows_records env drip_property
    (Hbound : forall row d, drip_property row = Return d ->
                            drip_model d = row_model row)
    drips : forall w r w',
  run_rows env drip_property drips w = (r, w') ->
  auth_user w' = auth_user w
  /\ exists evs,
       log w' = log w ++ evs
       /\ drip_sentdrip w' = drip_sentdrip w ++ created_records evs
       /\ length (sent_messages evs) = length (created_records evs)
       /\ Forall (fun sd => exists row, In row drips
                                       /\ sd_drip sd = drip_pk (row_model row))
                 (created_records evs).
Proof.
  induction drips as [|row drips IH]; intros w r w'; simpl.
  - unfold ret. intros H. injection H as <- <-. split; [reflexivity|].
    exists []. simpl. rewrite !app_nil_r. repeat split. constructor.
  - unfold bind.
    destruct (run_row env drip_property row w) as [r1 w1] eqn:Hrow.
    assert (Hstep : auth_user w1 = auth_user w
              /\ exists evs,
                   log w1 = log w ++ evs
                   /\ drip_sentdrip w1 = drip_sentdrip w ++ created_records evs
                   /\ length (sent_messages evs) = length (created_records evs)
                   /\ Forall (fun sd => sd_drip sd = drip_pk (row_model row))
                             (created_records evs)).
    { destruct (drip_property row) as [d|e] eqn:Hd.
      - destruct (run_row_advances env drip_property row d w r1 w1 Hd Hrow)
          as (d' & [Hu _] & _ & _ & evs & Hl & Ht & Hc & Hs).
        simpl in *. split; [exact Hu|]. exists evs.
        rewrite (Hbound row d Hd) in Hc. auto.
      - unfold run_row in Hrow. rewrite Hd in Hrow. injection Hrow as <- <-.
        split; [reflexivity|]. exists []. simpl. rewrite !app_nil_r.
        repeat split. constructor. }
    destruct Hstep as (Hu1 & evs1 & Hl1 & Ht1 & Hs1 & Hc1).
    assert (Hhead : Forall (fun sd => exists row0,
                              In row0 (row :: drips)
                              /\ sd_drip sd = drip_pk (row_model row0))
                           (created_records evs1)).
    { eapply Forall_impl; [exact Hc1|]. simpl. intros sd Hsd.
      exists row. auto. }
    destruct r1 as [a|e].
    + intros H. apply IH in H.
      destruct H as (Hu2 & evs2 & Hl2 & Ht2 & Hs2 & Hc2).
      split; [congruence|]. exists (evs1 ++ evs2).
      rewrite created_records_app, sent_messages_app, !length_app.
      rewrite Hl2, Hl1, Ht2, Ht1, !app_assoc.
      repeat split; [lia|].
      apply Forall_app. split; [exact Hhead|].
      eapply Forall_impl; [exact Hc2|]. simpl.
      intros sd (row0 & Hin & Hsd). exists row0. auto.
    + intros H. injection H as <- <-.
      split; [exact Hu1|]. exists evs1. auto.
Qed.

(** X19: the save handler does nothing for a record that was not created.
    For a created record, when each campaign row makes an instance of
    itself, every Sent Record the handler adds belongs to an enabled
    campaign of the table whose trigger is the content type of the record;
    the user table is untouched and the old Sent Records stay a prefix of
    the table. *)
Theorem post_save_handler_runs_triggered_enabled_campaigns env drip_property
    Drip_objects content_type created w r w' :
  (forall row d, drip_property row = Return d ->
                 drip_model d = row_model row) ->
  post_save_handler env drip_property Drip_objects content_type created w
  = (r, w') ->
  (created = false -> r = Return tt /\ w' = w)
  /\ auth_user w' = auth_user w
  /\ exists evs,
       log w' = log w ++ evs
       /\ drip_sentdrip w' = drip_sentdrip w ++ created_records evs
       /\ Forall (fun sd => exists row,
                     In row Drip_objects
                     /\ enabled (row_model row) = true
                     /\ trigger_model row = Some content_type
                     /\ sd_drip sd = drip_pk (row_model row))
                 (created_records evs).
Proof.
  intros Hbound. unfold post_save_handler. destruct created.
  - intros H. apply (run_rows_records env drip_property Hbound) in H.
    destruct H as (Hu & evs & Hl & Ht & _ & Hc).
    split; [discriminate|]. split; [exact Hu|]. exists evs.
    split; [exact Hl|]. split; [exact Ht|].
    eapply Forall_impl; [exact Hc|]. simpl.
    intros sd (row & Hin & Hsd). exists row.
    apply filter_In in Hin. destruct Hin as [Hin Hsel].
    unfold triggered_by in Hsel. apply andb_true_iff in Hsel.
    destruct Hsel as [Hen Htr].
    destruct (trigger_model row) as [ct|]; [|discriminate].
    apply Z.eqb_eq in Htr. subst ct. auto.
  - unfold ret. intros H. injection H as <- <-.
    split; [auto|]. split; [reflexivity|]. exists []. simpl.
    rewrite !app_nil_r. repeat split. constructor.
Qed.

(** ** Concrete instances of the further properties *)

Lemma outcome_state_eta {A S1 S2} (x : Outcome A * (S1 * S2)) :
  x = (fst x, (fst (snd x), snd (snd x))).
Proof. now destruct x as [r [a b]]. Qed.

Lemma outcome_world_eta {A S1} (x : Outcome A * S1) : x = (fst x, snd x).
Proof. now destruct x. Qed.

(** X1, at a concrete instance: the subject [Hello] is rendered once. *)
Lemma subject_memoised_unless_empty_witness :
  DripEmail.subject demo_env (fst (snd first_subject), snd (snd first_subject))
  = (Return "Hello"%string,
     (fst (snd first_subject), snd (snd first_subject))).
Proof.
  refine (proj1 (subject_memoised_unless_empty demo_env demo_world
                   (DripEmail.new demo_drip alice) "Hello"
                   (fst (snd first_subject)) (snd (snd first_subject)) _) _).
  - vm_compute. reflexivity.
  - discriminate.
Defined.

(** X2, at a concrete instance. *)
Lemma email_memoised_witness :
  DripEmail.email demo_env (fst (snd first_email), snd (snd first_email))
  = (Return (built_message demo_env demo_drip alice "Hello" "<p>Welcome</p>"),
     (fst (snd first_email), snd (snd first_email))).
Proof.
  apply (email_memoised demo_env demo_world demo_drip alice).
  vm_compute. reflexivity.
Defined.

(** X3, at a concrete instance: an empty body is rendered three times. *)
Lemma email_renders_subject_once_body_once_or_thrice_witness :
  log (fst (snd blank_body_email))
  = [EvRender (Some "Hello"%string) alice;
     EvRender (Some EmptyString) alice;
     EvRender (Some EmptyString) alice;
     EvRender (Some EmptyString) alice].
Proof.
  exact (proj2 (email_renders_subject_once_body_once_or_thrice demo_env
                  demo_world blank_body_drip alice
                  (fst blank_body_email) (fst (snd blank_body_email))
                  (snd (snd blank_body_email))
                  (outcome_state_eta blank_body_email))).
Defined.

(** X4, at a concrete instance: the header [Team <team@example.com>], and
    the default address on a message built for an instance without
    sender. *)
Lemma email_headers_witness :
  msg_from_email
    (built_message demo_env demo_drip alice "Hello" "<p>Welcome</p>")
  = Some "Team <team@example.com>"%string
  /\ DEFAULT_FROM_EMAIL (settings demo_env)
     = Some (msg_from_email
               (built_message demo_env senderless_drip alice "Hello" "Welcome")).
Proof.
  split.
  - refine (proj1 (proj2 (proj2 (email_headers demo_env demo_world demo_drip
                                   alice _ (snd first_email) _))) eq_refl).
    vm_compute. reflexivity.
  - refine (proj2 (proj2 (proj2 (proj2
              (email_headers demo_env demo_world senderless_drip alice _
                 (snd (DripEmail.email demo_env
                         (demo_world, DripEmail.new senderless_drip alice)))
                 _)))) eq_refl eq_refl).
    vm_compute. reflexivity.
Defined.

(** X5, at a concrete instance: a preview of the demo message. *)
Lemma build_email_without_send_only_renders_witness :
  exists renders,
    log (fst (snd preview)) = log demo_world ++ renders
    /\ sent_messages renders = []
    /\ created_records renders = [].
Proof.
  destruct (build_email_without_send_only_renders demo_env demo_world
              demo_drip alice (fst preview) (fst (snd preview))
              (snd (snd preview)) (outcome_state_eta preview))
    as (renders & Hlog & _ & Hs & Hc & _).
  exists renders. auto.
Defined.

(** X8, at a concrete instance: the transport is down, alice's message is
    refused and bob is never reached. *)
Lemma send_stops_at_refused_message_witness :
  exists k evs,
    1 <= k <= length (rows demo_world (QDistinct User_objects))
    /\ map sd_user (created_records evs)
       = map user_id (take k (rows demo_world (QDistinct User_objects)))
    /\ length (sent_messages evs) = k.
Proof.
  destruct (send_stops_at_refused_message offline_env demo_world
              cached_demo_drip (QDistinct User_objects)
              (fst (snd refused_send)) (snd (snd refused_send)) eq_refl)
    as (k & evs & m & Hk & _ & _ & Hids & Hlen & _).
  - vm_compute. reflexivity.
  - exists k, evs. auto.
Defined.

(** X9, at a concrete instance: alice already has the campaign. *)
Lemma run_skips_users_already_sent_witness :
  exists evs,
    drip_sentdrip (fst (snd backfill_run))
    = drip_sentdrip backfill_world ++ created_records evs
    /\ forall sd, In sd (created_records evs) -> sd_user sent_to_alice <> sd_user sd.
Proof.
  destruct (run_skips_users_already_sent backfill_env backfill_world demo_drip
              (fst backfill_run) (fst (snd backfill_run))
              (snd (snd backfill_run)) (outcome_state_eta backfill_run))
    as (evs & _ & Htab & Hnew).
  - intros old n [<- | []] _. unfold backfill_env, microseconds_per_day.
    simpl. lia.
  - exists evs. split; [exact Htab|]. intros sd Hsd.
    apply (Hnew sd sent_to_alice Hsd); [now left | reflexivity].
Defined.

(** X10, at a concrete instance: the two demo users have different ids. *)
Lemma run_one_record_per_user_witness :
  exists evs,
    drip_sentdrip (fst (snd backfill_run))
    = drip_sentdrip backfill_world ++ created_records evs
    /\ NoDup (map sd_user (created_records evs)).
Proof.
  destruct (run_one_record_per_user backfill_env backfill_world demo_drip
              (fst backfill_run) (fst (snd backfill_run))
              (snd (snd backfill_run)) (outcome_state_eta backfill_run))
    as (evs & _ & Htab & Hnd).
  - apply (bool_decide_unpack _). vm_compute. exact I.
  - exists evs. auto.
Defined.

(** X11, at a concrete instance: alice has an old record of another
    campaign and bob a record of this one dated at the reading; both stay. *)
Lemma prune_ignores_other_campaigns_and_later_records_witness :
  exists pruned s',
    prune demo_env (mixed_records_world, demo_drip) = (Return tt, s')
    /\ _queryset (snd s') = Some pruned
    /\ rows mixed_records_world pruned
       = rows mixed_records_world (QDistinct User_objects).
Proof.
  apply (prune_ignores_other_campaigns_and_later_records demo_env
           (mixed_records_world, demo_drip) (QDistinct User_objects)
           (emit (EvRulesQuery 7) mixed_records_world,
            set_queryset (QDistinct User_objects) demo_drip)).
  - vm_compute. reflexivity.
  - intros sd [<- | [<- | []]] Hdrip.
    + vm_compute in Hdrip. discriminate.
    + vm_compute. discriminate.
Defined.

(** X12, at a concrete instance. *)
Lemma prune_twice_cuts_at_later_reading_witness :
  exists pruned s',
    (prune demo_env ;;; prune demo_env) (demo_world, demo_drip)
    = (Return tt, s')
    /\ _queryset (snd s') = Some pruned.
Proof.
  destruct (prune_twice_cuts_at_later_reading demo_env (demo_world, demo_drip)
              (QDistinct User_objects)
              (emit (EvRulesQuery 7) demo_world,
               set_queryset (QDistinct User_objects) demo_drip))
    as (pruned & s' & H1 & H2 & _).
  - vm_compute. reflexivity.
  - exists pruned, s'. auto.
Defined.

(** X13, at a concrete instance: a rule on an unsupported field. *)
Lemma get_queryset_failure_caches_nothing_witness :
  snd (snd (get_queryset demo_env (broken_rule_world, demo_drip))) = demo_drip.
Proof.
  refine (proj1 (get_queryset_failure_caches_nothing demo_env
                   broken_rule_world demo_drip FieldError
                   (fst (snd (get_queryset demo_env
                                (broken_rule_world, demo_drip))))
                   _ _)).
  vm_compute. reflexivity.
Defined.


(** X15, at a concrete instance. *)
Lemma now_unshifted_without_shift_kwargs_witness :
  now demo_env (demo_world, anonymous_drip)
  = (Return (wall_clock demo_env (ticks demo_world)),
     (tick demo_world, anonymous_drip)).
Proof.
  apply (now_unshifted_without_shift_kwargs demo_env DripBase_class welcome
           only_name); reflexivity.
Defined.

(** X16, at a concrete instance: a shift given in fortnights. *)
Lemma now_raises_on_unknown_shift_keyword_witness :
  exists msg,
    now demo_env (demo_world, fortnight_drip)
    = (Raise (TypeError msg), (tick demo_world, fortnight_drip)).
Proof.
  apply (now_raises_on_unknown_shift_keyword demo_env DripBase_class welcome
           fortnight_kwargs {[ "fortnights" := 1%Z ]} fortnight_drip
           demo_world "fortnights" 1%Z);
    vm_compute; reflexivity.
Defined.

(** X17, at a concrete instance: the siblings of the demo instance have
    lost its templates. *)
Lemma walk_siblings_take_class_attributes_witness :
  Forall (fun sib => subject_template sib = None
                     /\ body_template sib = None
                     /\ from_email sib = None)
         (map (sibling demo_drip) (range (-1) 1)).
Proof.
  refine (proj2 (walk_siblings_take_class_attributes demo_world demo_drip 1 1
                   _ (demo_world, demo_drip) _) eq_refl).
  apply walk_loop_siblings. reflexivity.
Defined.

(** X18, at a concrete instance: a window given backwards. *)
Lemma walk_empty_window_witness :
  walk (-3) 2 (demo_world, demo_drip) = (Return [], (demo_world, demo_drip)).
Proof. apply walk_empty_window. lia. Defined.

(** X19, at a concrete instance: a record of content type 3 is created. *)
Lemma post_save_handler_runs_triggered_enabled_campaigns_witness :
  exists evs,
    drip_sentdrip (snd signalled)
    = drip_sentdrip demo_world ++ created_records evs
    /\ Forall (fun sd => exists row,
                  In row campaign_table
                  /\ enabled (row_model row) = true
                  /\ trigger_model row = Some 3%Z
                  /\ sd_drip sd = drip_pk (row_model row))
              (created_records evs).
Proof.
  destruct (post_save_handler_runs_triggered_enabled_campaigns demo_env
              demo_drip_property campaign_table 3 true demo_world
              (fst signalled) (snd signalled))
    as (_ & _ & evs & _ & Htab & Hall).
  - intros row d H. injection H as <-. reflexivity.
  - apply outcome_world_eta.
  - exists evs. auto.
Defined.
